(** * PyDocSmith [common.py]: docstring model and PEP 257 normalisation

    A shallow embedding of [src/PyDocSmith/common.py]: the keyword
    tables, the [DocstringMeta] class family, the [Docstring] aggregate
    with its derived views, and [format_docstring_to_pep257], together
    with the part of Python's [str] and [textwrap] that the latter calls.

    Python [str] values are modelled as [string]; a character stands for
    the code point of the same number (U+0000 to U+00FF).  Python [int]
    is [Z].  Optional attributes are [option]. *)

From Stdlib Require Import ZArith Ascii String List Bool Lia.
From stdpp Require Import base decidable option list gmap strings.

Local Open Scope string_scope.
Local Open Scope list_scope.
Local Open Scope Z_scope.

(** ** Keyword tables (common.py, lines 6-21) *)

Module Keywords.

Definition PARAM_KEYWORDS : gset string :=
  {[ "param"; "parameter"; "arg"; "argument"; "attribute"; "key";
     "keyword"; "note" ]}.
Definition RAISES_KEYWORDS : gset string :=
  {[ "raises"; "raise"; "except"; "exception" ]}.
Definition DEPRECATION_KEYWORDS : gset string :=
  {[ "deprecation"; "deprecated" ]}.
Definition RETURNS_KEYWORDS : gset string := {[ "return"; "returns" ]}.
Definition YIELDS_KEYWORDS : gset string := {[ "yield"; "yields" ]}.
Definition EXAMPLES_KEYWORDS : gset string := {[ "example"; "examples" ]}.
Definition NOTES_KEYWORDS : gset string := {[ "note"; "notes" ]}.

(** The seven tables, in the order of the source. *)
Definition tables : list (gset string) :=
  [ PARAM_KEYWORDS; RAISES_KEYWORDS; DEPRECATION_KEYWORDS; RETURNS_KEYWORDS;
    YIELDS_KEYWORDS; EXAMPLES_KEYWORDS; NOTES_KEYWORDS ].

(** [str.islower]-style check restricted to what the tables need: every
    character is one of [a]..[z]. *)
Definition is_lower_letter (c : ascii) : bool :=
  (97 <=? Z.of_nat (nat_of_ascii c)) && (Z.of_nat (nat_of_ascii c) <=? 122).

Fixpoint all_lower (s : string) : bool :=
  match s with
  | EmptyString => true
  | String c s' => is_lower_letter c && all_lower s'
  end.

End Keywords.

(** ** Enumerations (lines 28-43) *)

Inductive DocstringStyle := REST | GOOGLE | NUMPYDOC | EPYDOC | AUTO.

Definition DocstringStyle_value (s : DocstringStyle) : Z :=
  match s with
  | REST => 1 | GOOGLE => 2 | NUMPYDOC => 3 | EPYDOC => 4 | AUTO => 255
  end.

Inductive RenderingStyle := COMPACT | CLEAN | EXPANDED.

Definition RenderingStyle_value (s : RenderingStyle) : Z :=
  match s with COMPACT => 1 | CLEAN => 2 | EXPANDED => 3 end.

(** ** The [DocstringMeta] class family (lines 46-166)

    One constructor per class; the arguments are the instance attributes
    each [__init__] sets, in the order of its parameters.  [MetaBase] is
    a direct instance of [DocstringMeta]. *)

Inductive DocstringMeta :=
| MetaBase (args : list string) (description : option string)
| DocstringParam (args : list string) (description : option string)
    (arg_name : string) (type_name : option string)
    (is_optional : option bool) (default : option string)
| DocstringReturns (args : list string) (description : option string)
    (type_name : option string) (is_generator : bool)
    (return_name : option string)
| DocstringRaises (args : list string) (description : option string)
    (type_name : option string)
| DocstringDeprecated (args : list string) (description : option string)
    (version : option string)
| DocstringExample (args : list string) (snippet : option string)
    (description : option string)
| DocstringNote (args : list string) (snippet : option string)
    (description : option string).

(** The class of an instance, as [isinstance] sees it. *)
Inductive MetaClass :=
  CMeta | CParam | CReturns | CRaises | CDeprecated | CExample | CNote.

Definition class_of (m : DocstringMeta) : MetaClass :=
  match m with
  | MetaBase _ _ => CMeta
  | DocstringParam _ _ _ _ _ _ => CParam
  | DocstringReturns _ _ _ _ _ => CReturns
  | DocstringRaises _ _ _ => CRaises
  | DocstringDeprecated _ _ _ => CDeprecated
  | DocstringExample _ _ _ => CExample
  | DocstringNote _ _ _ => CNote
  end.

Definition MetaClass_eqb (a b : MetaClass) : bool :=
  match a, b with
  | CMeta, CMeta | CParam, CParam | CReturns, CReturns | CRaises, CRaises
  | CDeprecated, CDeprecated | CExample, CExample | CNote, CNote => true
  | _, _ => false
  end.

(** [isinstance(item, cls)] for one of the six subclasses (none of them
    has a subclass of its own in the module). *)
Definition isinstance (item : DocstringMeta) (cls : MetaClass) : bool :=
  MetaClass_eqb (class_of item) cls.

Module Meta.

Definition args (m : DocstringMeta) : list string :=
  match m with
  | MetaBase a _ | DocstringParam a _ _ _ _ _ | DocstringReturns a _ _ _ _
  | DocstringRaises a _ _ | DocstringDeprecated a _ _
  | DocstringExample a _ _ | DocstringNote a _ _ => a
  end.

Definition description (m : DocstringMeta) : option string :=
  match m with
  | MetaBase _ d | DocstringParam _ d _ _ _ _ | DocstringReturns _ d _ _ _
  | DocstringRaises _ d _ | DocstringDeprecated _ d _
  | DocstringExample _ _ d | DocstringNote _ _ d => d
  end.

(** [arg_name] is [None] on every class but [DocstringParam]. *)
Definition arg_name (m : DocstringMeta) : option string :=
  match m with
  | DocstringParam _ _ n _ _ _ => Some n
  | _ => None
  end.

(** The remaining attributes exist only on some classes: the outer
    [option] says whether the instance has the attribute. *)
Definition type_name (m : DocstringMeta) : option (option string) :=
  match m with
  | DocstringParam _ _ _ t _ _ | DocstringReturns _ _ t _ _
  | DocstringRaises _ _ t => Some t
  | _ => None
  end.

Definition is_optional (m : DocstringMeta) : option (option bool) :=
  match m with DocstringParam _ _ _ _ o _ => Some o | _ => None end.

Definition default (m : DocstringMeta) : option (option string) :=
  match m with DocstringParam _ _ _ _ _ d => Some d | _ => None end.

Definition is_generator (m : DocstringMeta) : option bool :=
  match m with DocstringReturns _ _ _ g _ => Some g | _ => None end.

Definition return_name (m : DocstringMeta) : option (option string) :=
  match m with DocstringReturns _ _ _ _ r => Some r | _ => None end.

Definition version (m : DocstringMeta) : option (option string) :=
  match m with DocstringDeprecated _ _ v => Some v | _ => None end.

Definition snippet (m : DocstringMeta) : option (option string) :=
  match m with
  | DocstringExample _ s _ | DocstringNote _ s _ => Some s
  | _ => None
  end.

(** [meta.description = d] *)
Definition set_description (d : option string) (m : DocstringMeta)
  : DocstringMeta :=
  match m with
  | MetaBase a _ => MetaBase a d
  | DocstringParam a _ n t o df => DocstringParam a d n t o df
  | DocstringReturns a _ t g r => DocstringReturns a d t g r
  | DocstringRaises a _ t => DocstringRaises a d t
  | DocstringDeprecated a _ v => DocstringDeprecated a d v
  | DocstringExample a s _ => DocstringExample a s d
  | DocstringNote a s _ => DocstringNote a s d
  end.

(** [meta.args = a] *)
Definition set_args (a : list string) (m : DocstringMeta) : DocstringMeta :=
  match m with
  | MetaBase _ d => MetaBase a d
  | DocstringParam _ d n t o df => DocstringParam a d n t o df
  | DocstringReturns _ d t g r => DocstringReturns a d t g r
  | DocstringRaises _ d t => DocstringRaises a d t
  | DocstringDeprecated _ d v => DocstringDeprecated a d v
  | DocstringExample _ s d => DocstringExample a s d
  | DocstringNote _ s d => DocstringNote a s d
  end.

End Meta.

(** ** The [Docstring] class (lines 169-234) *)

Record Docstring := mkDocstring {
  short_description : option string;
  long_description : option string;
  blank_after_short_description : bool;
  blank_after_long_description : bool;
  meta : list DocstringMeta;
  style : option DocstringStyle
}.

(** [Docstring.__init__(self, style=None)] *)
Definition Docstring_init (style : option DocstringStyle) : Docstring :=
  {| short_description := None;
     long_description := None;
     blank_after_short_description := false;
     blank_after_long_description := false;
     meta := [];
     style := style |}.

(** [[item for item in items if isinstance(item, cls)]] *)
Fixpoint instances_of (cls : MetaClass) (items : list DocstringMeta)
  : list DocstringMeta :=
  match items with
  | [] => []
  | item :: rest =>
      if isinstance item cls then item :: instances_of cls rest
      else instances_of cls rest
  end.

(** [for item in items: if isinstance(item, cls): return item] followed
    by [return None]. *)
Fixpoint first_instance_of (cls : MetaClass) (items : list DocstringMeta)
  : option DocstringMeta :=
  match items with
  | [] => None
  | item :: rest =>
      if isinstance item cls then Some item else first_instance_of cls rest
  end.

Definition params (self : Docstring) := instances_of CParam (meta self).
Definition raises (self : Docstring) := instances_of CRaises (meta self).
Definition returns (self : Docstring) := first_instance_of CReturns (meta self).
Definition many_returns (self : Docstring) := instances_of CReturns (meta self).
Definition deprecation (self : Docstring) :=
  first_instance_of CDeprecated (meta self).
Definition examples (self : Docstring) := instances_of CExample (meta self).
Definition notes (self : Docstring) := instances_of CNote (meta self).

(** ** The part of Python's [str] used by the module *)

Module PyStr.

Definition ord (c : ascii) : Z := Z.of_N (N_of_ascii c).

Definition in_range (lo hi : Z) (c : ascii) : bool :=
  (lo <=? ord c) && (ord c <=? hi).

(** [len(s)] *)
Definition len (s : string) : Z := Z.of_nat (String.length s).

(** [c.isspace()]: the white space of [str.strip()] with no argument.
    Below U+0100 these are U+0009..U+000D, U+001C..U+0020, U+0085 and
    U+00A0. *)
Definition isspace (c : ascii) : bool :=
  in_range 9 13 c || in_range 28 32 c || (ord c =? 133) || (ord c =? 160).

(** [s.lstrip()] *)
Fixpoint lstrip (s : string) : string :=
  match s with
  | EmptyString => EmptyString
  | String c s' => if isspace c then lstrip s' else s
  end.

(** [s.rstrip()] *)
Fixpoint rstrip (s : string) : string :=
  match s with
  | EmptyString => EmptyString
  | String c s' =>
      match rstrip s' with
      | EmptyString => if isspace c then EmptyString else String c EmptyString
      | r => String c r
      end
  end.

(** [s.strip()] *)
Definition strip (s : string) : string := rstrip (lstrip s).

(** [s.split(sep)] for a separator of one character.  The result is
    never empty: [''.split(sep) == ['']]. *)
Fixpoint split (sep : ascii) (s : string) : list string :=
  match s with
  | EmptyString => [EmptyString]
  | String c s' =>
      if Ascii.eqb c sep then EmptyString :: split sep s'
      else match split sep s' with
           | piece :: pieces => String c piece :: pieces
           | [] => [String c EmptyString]
           end
  end.

(** [sep.join(pieces)] *)
Definition join (sep : string) (pieces : list string) : string :=
  String.concat sep pieces.

Fixpoint take (n : nat) (s : string) : string :=
  match n, s with
  | S n', String c s' => String c (take n' s')
  | _, _ => EmptyString
  end.

Fixpoint drop (n : nat) (s : string) : string :=
  match n, s with
  | S n', String _ s' => drop n' s'
  | _, _ => s
  end.

(** A slice bound, as Python normalises it: a negative bound counts from
    the end, and the result is clipped to [0 .. len(s)]. *)
Definition slice_index (s : string) (i : Z) : nat :=
  Z.to_nat (if i <? 0 then Z.max 0 (i + len s) else Z.min i (len s)).

(** [s[:stop]] and [s[start:]] *)
Definition slice_to (s : string) (stop : Z) : string :=
  take (slice_index s stop) s.
Definition slice_from (s : string) (start : Z) : string :=
  drop (slice_index s start) s.

(** The highest index [i] of [s], counted from [pos], with
    [lo <= i < hi] and [s[i] == c]; [found] when there is none. *)
Fixpoint rfind_scan (c : ascii) (lo hi : nat) (pos : nat) (s : string)
  (found : Z) : Z :=
  match s with
  | EmptyString => found
  | String x s' =>
      rfind_scan c lo hi (S pos) s'
        (if (lo <=? pos)%nat && (pos <? hi)%nat && Ascii.eqb x c
         then Z.of_nat pos else found)
  end.

(** [s.rfind(c, start, stop)] for a character [c]: the highest index in
    [s[start:stop]] where [c] occurs, or [-1]. *)
Definition rfind (s : string) (c : ascii) (start stop : Z) : Z :=
  rfind_scan c (slice_index s start) (slice_index s stop) 0 s (-1).

(** [any(x != c for x in s)] *)
Fixpoint any_other_than (c : ascii) (s : string) : bool :=
  match s with
  | EmptyString => false
  | String x s' => negb (Ascii.eqb x c) || any_other_than c s'
  end.

Fixpoint spaces (n : nat) : string :=
  match n with
  | O => EmptyString
  | S n' => String " " (spaces n')
  end.

(** [s.expandtabs(tabsize)], at column [col] of the current line: a tab
    becomes the spaces up to the next multiple of [tabsize] (none when
    [tabsize <= 0]); a line feed or carriage return resets the column. *)
Fixpoint expandtabs_from (tabsize : Z) (col : Z) (s : string) : string :=
  match s with
  | EmptyString => EmptyString
  | String c s' =>
      if Ascii.eqb c "009" then
        if 0 <? tabsize then
          let incr := tabsize - col mod tabsize in
          spaces (Z.to_nat incr) +:+ expandtabs_from tabsize (col + incr) s'
        else expandtabs_from tabsize col s'
      else
        String c
          (expandtabs_from tabsize
             (if Ascii.eqb c "010" || Ascii.eqb c "013" then 0 else col + 1)
             s')
  end.

Definition expandtabs (tabsize : Z) (s : string) : string :=
  expandtabs_from tabsize 0 s.

(** [s.translate(table)] for a table given as a function on characters. *)
Fixpoint translate (table : ascii -> ascii) (s : string) : string :=
  match s with
  | EmptyString => EmptyString
  | String c s' => String (table c) (translate table s')
  end.

(** Truth value of an optional string ([None] and [''] are false) and of
    a list ([[]] is false). *)
Definition truthy (o : option string) : bool :=
  match o with
  | Some (String _ _) => true
  | _ => false
  end.

Definition nonempty {A} (l : list A) : bool :=
  match l with [] => false | _ :: _ => true end.

End PyStr.

(** ** Exceptions *)

Inductive exception := ValueError | AttributeError | TypeError | IndexError.

Inductive result (A : Type) : Type :=
| Ok (a : A)
| Raise (e : exception).
Arguments Ok {A} a.
Arguments Raise {A} e.

(** The error monad, with stdpp's [x ← c; k] notation. *)
#[global] Instance result_ret : MRet result := fun A a => Ok a.
#[global] Instance result_bind : MBind result := fun A B k r =>
  match r with
  | Ok a => k a
  | Raise e => Raise e
  end.

(** ** [textwrap.fill] of the Python standard library

    [textwrap.fill(text, width)] builds a [TextWrapper] whose other
    options keep their defaults: no indents, [expand_tabs],
    [replace_whitespace], [drop_whitespace], [break_long_words] and
    [break_on_hyphens] on, [fix_sentence_endings] off, [tabsize = 8],
    [max_lines = None].  The definitions follow the methods of
    [TextWrapper] (textwrap.py of CPython 3.11) under these options. *)

Module textwrap.

Import PyStr.

(** [_whitespace = '\t\n\x0b\x0c\r '] *)
Definition is_whitespace (c : ascii) : bool :=
  in_range 9 13 c || (ord c =? 32).

(** Character classes of [wordsep_re].  [\d] and [\w] are the Unicode
    classes of [re]; below U+0100 they are the ranges listed here. *)
Definition is_digit (c : ascii) : bool := in_range 48 57 c.

Definition is_word (c : ascii) : bool :=
  in_range 48 57 c || in_range 65 90 c || (ord c =? 95) || in_range 97 122 c
  || (ord c =? 170) || in_range 178 179 c || (ord c =? 181)
  || in_range 185 186 c || in_range 188 190 c || in_range 192 214 c
  || in_range 216 246 c || in_range 248 255 c.

(** [letter = [^\d\W]] *)
Definition is_letter (c : ascii) : bool := is_word c && negb (is_digit c).

(** [word_punct]: [\w], the double quote, and the characters of
    [!'&.,?]. *)
Definition is_word_punct (c : ascii) : bool :=
  is_word c || (ord c =? 33) || (ord c =? 34) || (ord c =? 39)
  || (ord c =? 38) || (ord c =? 46) || (ord c =? 44) || (ord c =? 63).

Definition is_hyphen (c : ascii) : bool := Ascii.eqb c "-".

(** [unicode_whitespace_trans]: every character of [_whitespace] maps to
    a space. *)
Definition unicode_whitespace_trans (c : ascii) : ascii :=
  if is_whitespace c then " "%char else c.

(** [TextWrapper._munge_whitespace] *)
Definition _munge_whitespace (text : string) : string :=
  translate unicode_whitespace_trans (expandtabs 8 text).

(** *** [wordsep_re]

    The text is scanned from left to right.  At a position, [before] is
    the text to its left, nearest character first (what a look-behind
    reads), and [rest] the text from the position on. *)

Definition next_is (p : ascii -> bool) (rest : string) : bool :=
  match rest with
  | String c _ => p c
  | EmptyString => false
  end.

Definition prev_is (p : ascii -> bool) (before : list ascii) : bool :=
  match before with
  | c :: _ => p c
  | [] => false
  end.

(** The number of leading characters of [rest] in the class [p], and
    the text after them. *)
Fixpoint span (p : ascii -> bool) (rest : string) : nat * string :=
  match rest with
  | String c rest' =>
      if p c then let '(n, r) := span p rest' in (S n, r) else (O, rest)
  | EmptyString => (O, rest)
  end.

(** [-{2,}(?=\w)] at the start of [rest]: the number of hyphens matched.
    The group takes the whole run of hyphens: after a shorter one the
    next character is a hyphen, which is not in [\w]. *)
Definition dashes_then_word (rest : string) : option nat :=
  let '(n, r) := span is_hyphen rest in
  if (2 <=? n)%nat && next_is is_word r then Some n else None.

(** First alternative, [[ws]+]: the length of the match at [rest]. *)
Definition match_whitespace (rest : string) : option nat :=
  let '(n, _) := span is_whitespace rest in
  if (1 <=? n)%nat then Some n else None.

(** Second alternative, [(?<=[wp]) -{2,} (?=\w)]. *)
Definition match_em_dash (before : list ascii) (rest : string) : option nat :=
  if prev_is is_word_punct before then dashes_then_word rest else None.

(** The three ends of the third alternative, tried in this order once
    [[^ws]+?] has taken the characters up to the position.

    [-(?: (?<=[lt]{2}-) | (?<=[lt]-[lt]-)) (?= [lt] -? [lt])]: a hyphen
    after two letters, or after letter, hyphen, letter; and before a
    letter, an optional hyphen and a letter.  It takes the hyphen. *)
Definition end_hyphenated (before : list ascii) (rest : string) : bool :=
  match rest with
  | String h rest' =>
      is_hyphen h
      && match before with
         | c1 :: c2 :: more =>
             (is_letter c1 && is_letter c2)
             || (is_letter c1 && is_hyphen c2 && prev_is is_letter more)
         | _ => false
         end
      && match rest' with
         | String l1 after =>
             is_letter l1
             && (match after with
                 | String h2 after' => is_hyphen h2 && next_is is_letter after'
                 | EmptyString => false
                 end
                 || next_is is_letter after)
         | EmptyString => false
         end
  | EmptyString => false
  end.

(** [(?=[ws]|\Z)] *)
Definition end_of_word (rest : string) : bool :=
  match rest with
  | String c _ => is_whitespace c
  | EmptyString => true
  end.

(** [(?<=[wp]) (?=-{2,}\w)] *)
Definition end_before_em_dash (before : list ascii) (rest : string) : bool :=
  prev_is is_word_punct before
  && match dashes_then_word rest with Some _ => true | None => false end.

(** Third alternative: [[^ws]+?] has just taken [c], the text before it
    is [before] and the text after it is [rest].  The lazy quantifier
    stops at the first position where one of the three ends matches. *)
Fixpoint match_word (before : list ascii) (c : ascii) (rest : string) : nat :=
  let before' := c :: before in
  if end_hyphenated before' rest then 2%nat
  else if end_of_word rest then 1%nat
  else if end_before_em_dash before' rest then 1%nat
  else match rest with
       | String c' rest' => S (match_word before' c' rest')
       | EmptyString => 1%nat
       end.

(** The length of the match of [wordsep_re] at a position with text
    left: the first alternative that matches. *)
Definition match_length (before : list ascii) (c : ascii) (rest : string)
  : nat :=
  match match_whitespace (String c rest) with
  | Some n => n
  | None =>
      match match_em_dash before (String c rest) with
      | Some n => n
      | None => match_word before c rest
      end
  end.

(** [[c for c in wordsep_re.split(text) if c]].  Every position of the
    text starts a match (of one character at least), so the matches
    follow each other without a gap: the pieces that [split] returns
    between them are empty and the comprehension removes them.  [fuel]
    bounds the number of matches. *)
Fixpoint split_from (fuel : nat) (before : list ascii) (text : string)
  : list string :=
  match fuel, text with
  | S fuel', String c rest =>
      let n := match_length before c rest in
      let chunk := take n text in
      chunk
      :: split_from fuel' (rev (list_ascii_of_string chunk) ++ before)
           (drop n text)
  | _, _ => []
  end.

(** [TextWrapper._split] with [break_on_hyphens] *)
Definition _split (text : string) : list string :=
  split_from (String.length text) [] text.

(** [TextWrapper._split_chunks] *)
Definition _split_chunks (text : string) : list string :=
  _split (_munge_whitespace text).

(** *** [_wrap_chunks]

    Python reverses [chunks] and pops from its end; here the list stays
    in reading order and its head is Python's [chunks[-1]]. *)

(** The inner [while chunks:] loop: move chunks to the current line
    while they fit. *)
Fixpoint take_fitting (width : Z) (chunks cur_line : list string)
  (cur_len : Z) : list string * Z * list string :=
  match chunks with
  | [] => (cur_line, cur_len, [])
  | chunk :: rest =>
      let l := len chunk in
      if cur_len + l <=? width
      then take_fitting width rest (cur_line ++ [chunk]) (cur_len + l)
      else (cur_line, cur_len, chunks)
  end.

(** [TextWrapper._handle_long_word] with [break_long_words] on, for a
    non-empty [reversed_chunks] whose top is [chunk]: returns the
    current line and the new top chunk. *)
Definition _handle_long_word (chunk : string) (cur_line : list string)
  (cur_len width : Z) : list string * string :=
  let space_left := if width <? 1 then 1 else width - cur_len in
  let end_ :=
    if len chunk >? space_left then
      let hyphen := rfind chunk "-" 0 space_left in
      if (hyphen >? 0) && any_other_than "-" (slice_to chunk hyphen)
      then hyphen + 1 else space_left
    else space_left in
  (cur_line ++ [slice_to chunk end_], slice_from chunk end_).

(** [if cur_line and cur_line[-1].strip() == '': del cur_line[-1]] *)
Definition drop_last_blank (cur_line : list string) : list string :=
  match last cur_line with
  | Some c => if String.eqb (strip c) "" then removelast cur_line else cur_line
  | None => cur_line
  end.

(** One pass of the outer [while chunks:] loop for a non-empty [chunks]:
    the chunks left and the lines so far. *)
Definition wrap_step (width : Z) (chunk : string) (rest lines : list string)
  : list string * list string :=
  let chunks1 :=
    if String.eqb (strip chunk) "" && nonempty lines then rest
    else chunk :: rest in
  let '(cur_line, cur_len, chunks2) := take_fitting width chunks1 [] 0 in
  let '(cur_line2, chunks3) :=
    match chunks2 with
    | top :: below =>
        if len top >? width then
          let '(line, top') := _handle_long_word top cur_line cur_len width in
          (line, top' :: below)
        else (cur_line, chunks2)
    | [] => (cur_line, chunks2)
    end in
  let cur_line3 := drop_last_blank cur_line2 in
  (chunks3,
   if nonempty cur_line3 then lines ++ [join "" cur_line3] else lines).

(** The outer loop.  [fuel] bounds the number of passes. *)
Fixpoint wrap_loop (fuel : nat) (width : Z) (chunks lines : list string)
  : list string :=
  match fuel, chunks with
  | S fuel', chunk :: rest =>
      let '(chunks', lines') := wrap_step width chunk rest lines in
      wrap_loop fuel' width chunks' lines'
  | _, _ => lines
  end.

(** A bound on the number of passes: each pass with [width >= 1] removes
    a chunk or shortens one. *)
Fixpoint weight (chunks : list string) : nat :=
  match chunks with
  | [] => O
  | chunk :: rest => S (String.length chunk + weight rest)
  end.

(** [TextWrapper._wrap_chunks] *)
Definition _wrap_chunks (width : Z) (chunks : list string)
  : result (list string) :=
  if width <=? 0 then Raise ValueError
  else Ok (wrap_loop (weight chunks) width chunks []).

(** [textwrap.wrap(text, width)] *)
Definition wrap (text : string) (width : Z) : result (list string) :=
  _wrap_chunks width (_split_chunks text).

(** [textwrap.fill(text, width)] *)
Definition fill (text : string) (width : Z) : result string :=
  lines ← wrap text width; Ok (join (String "010" EmptyString) lines).

End textwrap.

(** ** [format_docstring_to_pep257] (lines 236-254)

    The function mutates its argument and returns it, and it can raise
    part of the way through.  An [outcome] records how a run ended and
    the state of the object at that point. *)

Inductive outcome (S : Type) : Type :=
| Normal (s : S)
| Raised (e : exception) (s : S).
Arguments Normal {S} s.
Arguments Raised {S} e s.

Definition final_state {S} (o : outcome S) : S :=
  match o with
  | Normal s => s
  | Raised _ s => s
  end.

Definition raised {S} (o : outcome S) : option exception :=
  match o with
  | Normal _ => None
  | Raised e _ => Some e
  end.

(** Run [k] on the state left by [o] unless [o] raised. *)
Definition and_then {S} (o : outcome S) (k : S -> outcome S) : outcome S :=
  match o with
  | Normal s => k s
  | Raised e s => Raised e s
  end.

(** The values that the names of a [for] target can be bound to: the
    elements of [enumerate(split_description)] pair an [int] with a
    [str]. *)
Inductive pyobj :=
| PyInt (n : Z)
| PyStr (s : string).

(** [enumerate(l)]: the pairs [(0, l[0]), (1, l[1]), ...]. *)
Fixpoint enumerate_from (i : Z) (l : list string) : list (pyobj * pyobj) :=
  match l with
  | [] => []
  | x :: rest => (PyInt i, PyStr x) :: enumerate_from (i + 1) rest
  end.

Definition enumerate (l : list string) : list (pyobj * pyobj) :=
  enumerate_from 0 l.

(** [o.strip()]: an [int] has no attribute [strip]. *)
Definition py_strip (o : pyobj) : result string :=
  match o with
  | PyStr s => Ok (PyStr.strip s)
  | PyInt _ => Raise AttributeError
  end.

(** [l[idx] = v]: the index of a list is an [int] within range. *)
Definition py_setitem (l : list string) (idx : pyobj) (v : string)
  : result (list string) :=
  match idx with
  | PyInt i =>
      let n := Z.of_nat (length l) in
      if (i <? - n) || (n <=? i) then Raise IndexError
      else Ok (<[Z.to_nat (if i <? 0 then i + n else i) := v]> l)
  | PyStr _ => Raise TypeError
  end.

(** Lines 246-247:
    [for itm, idx in enumerate(split_description):
         split_description[idx] = textwrap.fill(itm.strip(), width)].
    The target binds [itm] to the first component of each pair and [idx]
    to the second.  The right-hand side is evaluated before the store,
    and the argument [itm.strip()] before the call of [fill]. *)
Fixpoint rewrap_lines (width : Z) (pairs : list (pyobj * pyobj))
  (split_description : list string) : result (list string) :=
  match pairs with
  | [] => Ok split_description
  | (itm, idx) :: more =>
      stripped ← py_strip itm;
      filled ← textwrap.fill stripped width;
      split_description' ← py_setitem split_description idx filled;
      rewrap_lines width more split_description'
  end.

(** Lines 245-249, the value assigned to [meta.description]. *)
Definition rewrap_description (description : string) (width : Z)
  : result string :=
  let split_description := PyStr.split "010" description in
  split_description' ←
    rewrap_lines width (enumerate split_description) split_description;
  Ok (PyStr.join (String "010" EmptyString) split_description').

(** Line 252: [[arg.strip() for arg in meta.args if arg.strip()]] *)
Fixpoint clean_args (args : list string) : list string :=
  match args with
  | [] => []
  | arg :: rest =>
      if PyStr.truthy (Some (PyStr.strip arg))
      then PyStr.strip arg :: clean_args rest
      else clean_args rest
  end.

(** Lines 243-249 on one fragment. *)
Definition format_meta_description (m : DocstringMeta) (width : Z)
  : outcome DocstringMeta :=
  match Meta.description m with
  | Some description =>
      if PyStr.truthy (Some description) then
        match rewrap_description description width with
        | Ok description' => Normal (Meta.set_description (Some description') m)
        | Raise e => Raised e m
        end
      else Normal m
  | None => Normal m
  end.

(** Lines 250-252 on one fragment. *)
Definition format_meta_args (m : DocstringMeta) : outcome DocstringMeta :=
  if PyStr.nonempty (Meta.args m)
  then Normal (Meta.set_args (clean_args (Meta.args m)) m)
  else Normal m.

(** The body of [for meta in docstring.meta:]. *)
Definition format_meta (m : DocstringMeta) (width : Z)
  : outcome DocstringMeta :=
  and_then (format_meta_description m width) format_meta_args.

(** The loop of line 242 over the fragments, in order; a fragment
    after the one that raises is not reached. *)
Fixpoint format_metas (items : list DocstringMeta) (width : Z)
  : outcome (list DocstringMeta) :=
  match items with
  | [] => Normal []
  | m :: rest =>
      match format_meta m width with
      | Raised e m' => Raised e (m' :: rest)
      | Normal m' =>
          match format_metas rest width with
          | Normal rest' => Normal (m' :: rest')
          | Raised e rest' => Raised e (m' :: rest')
          end
      end
  end.

Definition set_short_description (v : option string) (d : Docstring) :=
  {| short_description := v;
     long_description := long_description d;
     blank_after_short_description := blank_after_short_description d;
     blank_after_long_description := blank_after_long_description d;
     meta := meta d;
     style := style d |}.

Definition set_long_description (v : option string) (d : Docstring) :=
  {| short_description := short_description d;
     long_description := v;
     blank_after_short_description := blank_after_short_description d;
     blank_after_long_description := blank_after_long_description d;
     meta := meta d;
     style := style d |}.

Definition set_meta (v : list DocstringMeta) (d : Docstring) :=
  {| short_description := short_description d;
     long_description := long_description d;
     blank_after_short_description := blank_after_short_description d;
     blank_after_long_description := blank_after_long_description d;
     meta := v;
     style := style d |}.

(** Lines 237-238 *)
Definition format_short_description (width : Z) (docstring : Docstring)
  : outcome Docstring :=
  match short_description docstring with
  | Some text =>
      if PyStr.truthy (Some text) then
        match textwrap.fill (PyStr.strip text) width with
        | Ok text' => Normal (set_short_description (Some text') docstring)
        | Raise e => Raised e docstring
        end
      else Normal docstring
  | None => Normal docstring
  end.

(** Lines 239-240 *)
Definition format_long_description (width : Z) (docstring : Docstring)
  : outcome Docstring :=
  match long_description docstring with
  | Some text =>
      if PyStr.truthy (Some text) then
        match textwrap.fill (PyStr.strip text) width with
        | Ok text' => Normal (set_long_description (Some text') docstring)
        | Raise e => Raised e docstring
        end
      else Normal docstring
  | None => Normal docstring
  end.

(** Lines 242-252 *)
Definition format_all_meta (width : Z) (docstring : Docstring)
  : outcome Docstring :=
  match format_metas (meta docstring) width with
  | Normal items => Normal (set_meta items docstring)
  | Raised e items => Raised e (set_meta items docstring)
  end.

(** [format_docstring_to_pep257(docstring, width)]: [Normal d] when the
    call returns the object in state [d]; [Raised e d] when it raises
    [e], leaving the object in state [d]. *)
Definition format_docstring_to_pep257 (docstring : Docstring) (width : Z)
  : outcome Docstring :=
  and_then
    (and_then (format_short_description width docstring)
       (format_long_description width))
    (format_all_meta width).

(** The default [width=72]. *)
Definition default_width : Z := 72.

(** ** Predicates used in the statements *)

(** [x] is the first instance of [cls] in [items]. *)
Definition is_first_instance (cls : MetaClass) (x : DocstringMeta)
  (items : list DocstringMeta) : Prop :=
  exists before after,
    items = before ++ x :: after
    /\ isinstance x cls = true
    /\ Forall (fun m => isinstance m cls = false) before.

(** [m'] is an instance of the class of [m] that agrees with [m] on
    every attribute but [args] and [description]. *)
Definition same_frame (m m' : DocstringMeta) : Prop :=
  class_of m' = class_of m
  /\ Meta.arg_name m' = Meta.arg_name m
  /\ Meta.type_name m' = Meta.type_name m
  /\ Meta.is_optional m' = Meta.is_optional m
  /\ Meta.default m' = Meta.default m
  /\ Meta.version m' = Meta.version m
  /\ Meta.is_generator m' = Meta.is_generator m
  /\ Meta.return_name m' = Meta.return_name m
  /\ Meta.snippet m' = Meta.snippet m
  /\ m' = Meta.set_args (Meta.args m')
            (Meta.set_description (Meta.description m') m).

(** What lines 250-252 do to a fragment whose description is not
    rewrapped. *)
Definition with_clean_args (m : DocstringMeta) : DocstringMeta :=
  if PyStr.nonempty (Meta.args m)
  then Meta.set_args (clean_args (Meta.args m)) m
  else m.


(** A text with no excess white space: none at either end, and inside
    only single spaces. *)
Fixpoint single_spaced (s : string) : bool :=
  match s with
  | EmptyString => true
  | String c s' =>
      (if PyStr.isspace c
       then Ascii.eqb c " " && negb (textwrap.next_is PyStr.isspace s')
       else true)
      && single_spaced s'
  end.

Definition tidy (s : string) : bool :=
  String.eqb (PyStr.strip s) s && single_spaced s.

(** An optional text that is absent, or tidy and at most [width] long. *)
Definition tidy_within (width : Z) (o : option string) : Prop :=
  match o with
  | None => True
  | Some s => PyStr.len s <= width /\ tidy s = true
  end.

(** The text of a description is falsy: absent or empty. *)
Definition no_text (o : option string) : Prop := PyStr.truthy o = false.

(** ** The rewrap of a description in the words of the specification

    Section 4.3, step 3: split the description on line breaks, rewrap
    each line on its own to [width] after trimming it, and join the
    results with line breaks.  It is what lines 245-249 are compared
    with. *)

Module Spec.

Fixpoint rewrap_each (width : Z) (lines : list string)
  : result (list string) :=
  match lines with
  | [] => Ok []
  | line :: rest =>
      filled ← textwrap.fill (PyStr.strip line) width;
      rest' ← rewrap_each width rest;
      Ok (filled :: rest')
  end.

Definition rewrap_description (description : string) (width : Z)
  : result string :=
  lines ← rewrap_each width (PyStr.split "010" description);
  Ok (PyStr.join (String "010" EmptyString) lines).

End Spec.

(** ** Inputs of the scenarios *)

Definition newline : string := String "010" EmptyString.

(** [Docstring()] with [short_description] set. *)
Definition docstring_with_short (text : string) : Docstring :=
  set_short_description (Some text) (Docstring_init None).

(** [Docstring()] with one [DocstringParam] for [x] in [meta]. *)
Definition docstring_with_param (description : option string) : Docstring :=
  set_meta
    [DocstringParam ["param"; "x"] description "x" None None None]
    (Docstring_init None).

Definition two_line_description : string :=
  "line one that is quite long and will wrap" +:+ newline +:+ "line two".

(** The [args] of the stripping scenario: ["  a "], [""] and ["b\t"]. *)
Definition untidy_args : list string :=
  ["  a "; ""; String "b" (String "009" EmptyString)].



(** [Docstring()] with the given short description and one plain
    fragment with [untidy_args]. *)
Definition docstring_with_untidy_args (short : option string) : Docstring :=
  set_meta [MetaBase untidy_args None]
    (set_short_description short (Docstring_init None)).

(** ** Measures used in the proofs *)

(** The sum of the lengths of a list of chunks. *)
Fixpoint total_len (chunks : list string) : Z :=
  match chunks with
  | [] => 0
  | chunk :: rest => PyStr.len chunk + total_len rest
  end.

(** Every character of [s] is in the class [p]. *)
Fixpoint all_chars (p : ascii -> bool) (s : string) : bool :=
  match s with
  | EmptyString => true
  | String c s' => p c && all_chars p s'
  end.

Definition not_newline (c : ascii) : bool := negb (Ascii.eqb c "010").

(** The lines of a text, [text.split('\n')], are at most [width] long. *)
Definition lines_within (width : Z) (text : string) : Prop :=
  Forall (fun line => PyStr.len line <= width) (PyStr.split "010" text).

(** The words of a text, [text.split()]: the maximal runs of characters
    that are not white space.  A rewrap that breaks lines only at white
    space keeps the words of the text. *)
Fixpoint words_from (current : string) (s : string) : list string :=
  match s with
  | EmptyString =>
      match current with EmptyString => [] | _ => [current] end
  | String c s' =>
      if PyStr.isspace c then
        match current with
        | EmptyString => words_from EmptyString s'
        | _ => current :: words_from EmptyString s'
        end
      else words_from (current +:+ String c EmptyString) s'
  end.

Definition words (s : string) : list string := words_from EmptyString s.

(** The characters of a text that are not white space, in order: what
    a rewrap has to keep. *)
Fixpoint visible (s : string) : string :=
  match s with
  | EmptyString => EmptyString
  | String c s' => if PyStr.isspace c then visible s' else String c (visible s')
  end.

(** [all_chars] as a proposition. *)
Definition every_char (p : ascii -> bool) (s : string) : Prop :=
  all_chars p s = true.

(** ** Tactics *)

(** Decide a closed fact about one character by its 256 cases. *)
Ltac by_cases_on c :=
  destruct c as [[|] [|] [|] [|] [|] [|] [|] [|]];
  try reflexivity; try discriminate.

(** ** Predicates on the result of a run *)

(** A token as line 252 leaves it: not empty, and with no white space
    at either end. *)
Definition clean_token (a : string) : Prop := a <> "" /\ PyStr.strip a = a.

(** [P text filled] holds of every description of [d] that is set, with
    what [d'] has in its place. *)
Definition descriptions_satisfy (P : string -> string -> Prop)
  (d d' : Docstring) : Prop :=
  (forall text,
     short_description d = Some text ->
     exists filled, short_description d' = Some filled /\ P text filled)
  /\ (forall text,
        long_description d = Some text ->
        exists filled, long_description d' = Some filled /\ P text filled).

(** A character that is not one of [textwrap]'s white space characters,
    or is a space. *)
Definition space_or_other (c : ascii) : bool :=
  negb (textwrap.is_whitespace c) || Ascii.eqb c " ".

(** The same, or a line feed. *)
Definition space_newline_or_other (c : ascii) : bool :=
  space_or_other c || Ascii.eqb c "010".

(** A chunk or a line that is not the empty string. *)
Definition nonblank (s : string) : Prop := s <> "".

(** The text is empty or has no empty line. *)
Definition no_blank_line (text : string) : Prop :=
  text = "" \/ Forall (fun line => line <> "") (PyStr.split "010" text).

(** * Properties *)

(** ** Derived views *)

Section Views.

Variable cls : MetaClass.

Lemma instances_of_filter (items : list DocstringMeta) :
  instances_of cls items = List.filter (fun m => isinstance m cls) items.
Proof.
  induction items as [|item rest IH]; simpl; [reflexivity|].
  rewrite IH. reflexivity.
Qed.

Lemma first_instance_of_head (items : list DocstringMeta) :
  first_instance_of cls items = head (instances_of cls items).
Proof.
  induction items as [|item rest IH]; simpl; [reflexivity|].
  destruct (isinstance item cls); [reflexivity | exact IH].
Qed.

Lemma first_instance_of_Some (items : list DocstringMeta) x :
  first_instance_of cls items = Some x <-> is_first_instance cls x items.
Proof.
  unfold is_first_instance. induction items as [|item rest IH]; simpl.
  - split; [discriminate|]. intros (before & after & H & _).
    destruct before; discriminate.
  - destruct (isinstance item cls) eqn:E.
    + split.
      * intros [= ->]. exists [], rest. repeat split; auto.
      * intros (before & after & H & Hx & Hb).
        destruct before as [|b before]; simpl in H.
        -- congruence.
        -- injection H as -> _. inversion Hb; congruence.
    + rewrite IH. split.
      * intros (before & after & -> & Hx & Hb).
        exists (item :: before), after. repeat split; auto.
      * intros (before & after & H & Hx & Hb).
        destruct before as [|b before]; simpl in H.
        -- injection H as -> _. congruence.
        -- injection H as -> ->. inversion Hb; subst. eauto.
Qed.

Lemma first_instance_of_None (items : list DocstringMeta) :
  first_instance_of cls items = None
  <-> Forall (fun m => isinstance m cls = false) items.
Proof.
  induction items as [|item rest IH]; simpl.
  - split; auto.
  - destruct (isinstance item cls) eqn:E.
    + split; [discriminate|]. intros H. inversion H; congruence.
    + rewrite IH. split; [auto|]. intros H. inversion H; auto.
Qed.

End Views.

(** C3: every list-valued view is the sub-sequence of [meta] made of the
    instances of its class, in the order of [meta]; [returns] and
    [deprecation] are the first instance of their class in [meta], the
    one that no other instance precedes, and [None] exactly when [meta]
    has no such instance. *)
Theorem C3_derived_views (d : Docstring) :
  params d = List.filter (fun m => isinstance m CParam) (meta d)
  /\ raises d = List.filter (fun m => isinstance m CRaises) (meta d)
  /\ many_returns d = List.filter (fun m => isinstance m CReturns) (meta d)
  /\ examples d = List.filter (fun m => isinstance m CExample) (meta d)
  /\ notes d = List.filter (fun m => isinstance m CNote) (meta d)
  /\ returns d = head (List.filter (fun m => isinstance m CReturns) (meta d))
  /\ deprecation d
     = head (List.filter (fun m => isinstance m CDeprecated) (meta d))
  /\ (forall x, returns d = Some x <-> is_first_instance CReturns x (meta d))
  /\ (forall x,
        deprecation d = Some x <-> is_first_instance CDeprecated x (meta d))
  /\ (returns d = None
      <-> Forall (fun m => isinstance m CReturns = false) (meta d))
  /\ (deprecation d = None
      <-> Forall (fun m => isinstance m CDeprecated = false) (meta d)).
Proof.
  unfold params, raises, many_returns, examples, notes, returns, deprecation.
  repeat split;
    try apply instances_of_filter;
    try (rewrite first_instance_of_head, instances_of_filter; reflexivity);
    try apply first_instance_of_Some;
    try apply first_instance_of_None.
Qed.

(** The scenario of the specification: with [meta] in the order Param,
    Returns, Param, [params] is the two Param fragments in that order
    and [returns] is the Returns fragment. *)
Example views_scenario :
  let p1 := DocstringParam ["param"; "a"] (Some "first") "a" None None None in
  let r := DocstringReturns ["returns"] (Some "result") None false None in
  let p2 := DocstringParam ["param"; "b"] None "b" (Some "int") None None in
  let d := set_meta [p1; r; p2] (Docstring_init None) in
  params d = [p1; p2] /\ returns d = Some r /\ many_returns d = [r].
Proof. repeat split. Qed.

(** C10: a new [Docstring(style)] has no descriptions, both blank-line
    flags false, an empty [meta] and the given style; all its list views
    are empty and [returns] and [deprecation] are [None]. *)
Theorem C10_new_docstring (s : option DocstringStyle) :
  let d := Docstring_init s in
  short_description d = None
  /\ long_description d = None
  /\ blank_after_short_description d = false
  /\ blank_after_long_description d = false
  /\ meta d = []
  /\ style d = s
  /\ params d = [] /\ raises d = [] /\ many_returns d = []
  /\ examples d = [] /\ notes d = []
  /\ returns d = None /\ deprecation d = None.
Proof. repeat split. Qed.

(** ** Keyword tables *)

(** C8: each of the seven tables holds exactly its listed words, all in
    lower case; the Param table is [param], [parameter], [arg],
    [argument], [attribute], [key], [keyword], [note], the Note table is
    [note], [notes], and [note] is in both. *)
Theorem C8_keyword_tables :
  (forall w, w ∈ Keywords.PARAM_KEYWORDS <->
     w = "param" \/ w = "parameter" \/ w = "arg" \/ w = "argument"
     \/ w = "attribute" \/ w = "key" \/ w = "keyword" \/ w = "note")
  /\ (forall w, w ∈ Keywords.RAISES_KEYWORDS <->
        w = "raises" \/ w = "raise" \/ w = "except" \/ w = "exception")
  /\ (forall w, w ∈ Keywords.DEPRECATION_KEYWORDS <->
        w = "deprecation" \/ w = "deprecated")
  /\ (forall w, w ∈ Keywords.RETURNS_KEYWORDS <->
        w = "return" \/ w = "returns")
  /\ (forall w, w ∈ Keywords.YIELDS_KEYWORDS <-> w = "yield" \/ w = "yields")
  /\ (forall w, w ∈ Keywords.EXAMPLES_KEYWORDS <->
        w = "example" \/ w = "examples")
  /\ (forall w, w ∈ Keywords.NOTES_KEYWORDS <-> w = "note" \/ w = "notes")
  /\ length Keywords.tables = 7%nat
  /\ Forall (fun t => forall w, w ∈ t -> Keywords.all_lower w = true)
       Keywords.tables
  /\ "note" ∈ Keywords.PARAM_KEYWORDS
  /\ "note" ∈ Keywords.NOTES_KEYWORDS.
Proof.
  unfold Keywords.tables, Keywords.PARAM_KEYWORDS, Keywords.RAISES_KEYWORDS,
    Keywords.DEPRECATION_KEYWORDS, Keywords.RETURNS_KEYWORDS,
    Keywords.YIELDS_KEYWORDS, Keywords.EXAMPLES_KEYWORDS,
    Keywords.NOTES_KEYWORDS.
  assert (Hmem : forall (w : string) (X Y : gset string),
             w ∈ X ∪ Y <-> w ∈ X \/ w ∈ Y)
    by (intros; apply elem_of_union).
  assert (Hone : forall w v : string, w ∈ ({[ v ]} : gset string) <-> w = v)
    by (intros; apply elem_of_singleton).
  repeat match goal with
         | |- (forall w, _ <-> _) /\ _ =>
             split; [intros w; rewrite ?Hmem, ?Hone; tauto|]
         end.
  split; [reflexivity|].
  split; [|split; rewrite ?Hmem, ?Hone; tauto].
  repeat constructor; intros w Hw;
    rewrite ?Hmem, ?Hone in Hw;
    repeat match type of Hw with _ \/ _ => destruct Hw as [Hw|Hw] end;
    subst w; reflexivity.
Qed.

(** ** The loop over the lines of a description *)

Lemma split_nonempty sep s : PyStr.split sep s <> [].
Proof.
  destruct s as [|c s]; simpl; [discriminate|].
  destruct (Ascii.eqb c sep); [discriminate|].
  destruct (PyStr.split sep s); discriminate.
Qed.

(** The first pass of the loop binds [itm] to the index [0] and calls
    [strip] on it: the rewrap of a description raises for every
    description and every width. *)
Lemma rewrap_description_raises description width :
  rewrap_description description width = Raise AttributeError.
Proof.
  unfold rewrap_description.
  destruct (PyStr.split "010" description) as [|line lines] eqn:E.
  - destruct (split_nonempty _ _ E).
  - reflexivity.
Qed.

Lemma format_meta_description_eq m width :
  format_meta_description m width
  = if PyStr.truthy (Meta.description m) then Raised AttributeError m
    else Normal m.
Proof.
  unfold format_meta_description.
  destruct (Meta.description m) as [[|c s]|]; simpl; try reflexivity.
  rewrite rewrap_description_raises. reflexivity.
Qed.

Lemma format_meta_eq m width :
  format_meta m width
  = if PyStr.truthy (Meta.description m) then Raised AttributeError m
    else Normal (with_clean_args m).
Proof.
  unfold format_meta. rewrite format_meta_description_eq.
  destruct (PyStr.truthy (Meta.description m)); simpl; [reflexivity|].
  unfold format_meta_args, with_clean_args.
  destruct (PyStr.nonempty (Meta.args m)); reflexivity.
Qed.

Lemma format_metas_no_text items width :
  Forall (fun m => no_text (Meta.description m)) items ->
  format_metas items width = Normal (map with_clean_args items).
Proof.
  induction 1 as [|m rest Hm _ IH]; simpl; [reflexivity|].
  rewrite format_meta_eq, Hm, IH. reflexivity.
Qed.

Lemma format_metas_raises items width :
  Exists (fun m => PyStr.truthy (Meta.description m) = true) items ->
  raised (format_metas items width) = Some AttributeError.
Proof.
  induction items as [|m rest IH]; intros H; [inversion H|].
  simpl. rewrite format_meta_eq.
  destruct (PyStr.truthy (Meta.description m)) eqn:E; [reflexivity|].
  inversion H as [? ? Hm|? ? Hrest]; subst; [congruence|].
  specialize (IH Hrest).
  destruct (format_metas rest width); simpl in *; congruence.
Qed.

(** A relation that holds between a fragment and itself, and between a
    fragment and its copy with clean [args], holds position by position
    between [meta] before and after the loop, however it ends. *)
Lemma format_metas_Forall2 (R : DocstringMeta -> DocstringMeta -> Prop)
  items width :
  (forall m, R m m) ->
  (forall m, R m (with_clean_args m)) ->
  Forall2 R items (final_state (format_metas items width)).
Proof.
  intros Hrefl Hclean.
  assert (Hid : forall l, Forall2 R l l)
    by (intros l; induction l; constructor; auto).
  induction items as [|m rest IH]; simpl; [constructor|].
  rewrite format_meta_eq.
  destruct (PyStr.truthy (Meta.description m)); simpl.
  - constructor; auto.
  - destruct (format_metas rest width); simpl in *; constructor; auto.
Qed.

(** ** [textwrap.fill] and the width *)

Lemma fill_nonpositive text width :
  width <= 0 -> textwrap.fill text width = Raise ValueError.
Proof.
  intros H. unfold textwrap.fill, textwrap.wrap, textwrap._wrap_chunks.
  destruct (Z.leb_spec width 0); [reflexivity | lia].
Qed.

Lemma wrap_positive text width :
  0 < width ->
  textwrap.wrap text width
  = Ok (textwrap.wrap_loop (textwrap.weight (textwrap._split_chunks text))
          width (textwrap._split_chunks text) []).
Proof.
  intros H. unfold textwrap.wrap, textwrap._wrap_chunks.
  destruct (Z.leb_spec width 0); [lia | reflexivity].
Qed.

Lemma fill_positive text width :
  0 < width ->
  exists lines,
    textwrap.wrap text width = Ok lines
    /\ textwrap.fill text width
       = Ok (PyStr.join (String "010" EmptyString) lines).
Proof.
  intros H. eexists. split; [apply wrap_positive; exact H|].
  unfold textwrap.fill. rewrite wrap_positive by exact H. reflexivity.
Qed.

(** ** The state after [format_docstring_to_pep257] *)

Lemma truthy_Some_inv o :
  PyStr.truthy o = true -> exists c s, o = Some (String c s).
Proof. destruct o as [[|c s]|]; simpl; try discriminate; eauto. Qed.

(** What a run can have done to the object when it ends, by return or
    by exception. *)
Lemma final_state_cases d width :
  let d' := final_state (format_docstring_to_pep257 d width) in
  blank_after_short_description d' = blank_after_short_description d
  /\ blank_after_long_description d' = blank_after_long_description d
  /\ style d' = style d
  /\ (meta d' = meta d
      \/ meta d' = final_state (format_metas (meta d) width))
  /\ (short_description d' = short_description d
      \/ exists text text',
           short_description d = Some text
           /\ PyStr.truthy (Some text) = true
           /\ textwrap.fill (PyStr.strip text) width = Ok text'
           /\ short_description d' = Some text')
  /\ (long_description d' = long_description d
      \/ exists text text',
           long_description d = Some text
           /\ PyStr.truthy (Some text) = true
           /\ textwrap.fill (PyStr.strip text) width = Ok text'
           /\ long_description d' = Some text').
Proof.
  unfold format_docstring_to_pep257, format_short_description,
    format_long_description, format_all_meta.
  destruct d as [sd ld b1 b2 ms st];
    cbn -[textwrap.fill PyStr.strip format_metas].
  destruct sd as [[|c1 s1]|]; cbn -[textwrap.fill PyStr.strip format_metas];
    try destruct (textwrap.fill (PyStr.strip (String c1 s1)) width) eqn:E1;
    cbn -[textwrap.fill PyStr.strip format_metas];
    destruct ld as [[|c2 s2]|]; cbn -[textwrap.fill PyStr.strip format_metas];
    try destruct (textwrap.fill (PyStr.strip (String c2 s2)) width) eqn:E2;
    cbn -[textwrap.fill PyStr.strip format_metas];
    try destruct (format_metas ms width);
    cbn -[textwrap.fill PyStr.strip format_metas];
    (split; [reflexivity|]); (split; [reflexivity|]); (split; [reflexivity|]);
    (split; [first [left; reflexivity | right; reflexivity]|]);
    split;
    first [ left; reflexivity
          | right; do 2 eexists;
            split; [reflexivity|]; split; [reflexivity|];
            split; [eassumption | reflexivity] ].
Qed.

(** C4: however the run ends, [meta] has the same fragments in the same
    positions, each of the class it had and with its [arg_name],
    [type_name], [is_optional], [default], [version], [is_generator],
    [return_name] and [snippet] as before (it differs from the original
    in [args] and [description] at most), and the blank-line flags and
    the style of the docstring are as before. *)
Theorem C4_frame (d : Docstring) (width : Z) :
  let d' := final_state (format_docstring_to_pep257 d width) in
  length (meta d') = length (meta d)
  /\ Forall2 same_frame (meta d) (meta d')
  /\ blank_after_short_description d' = blank_after_short_description d
  /\ blank_after_long_description d' = blank_after_long_description d
  /\ style d' = style d.
Proof.
  intros d'.
  destruct (final_state_cases d width) as (Hb1 & Hb2 & Hst & Hm & _ & _).
  fold d' in Hb1, Hb2, Hst, Hm.
  assert (Hrefl : forall m, same_frame m m)
    by (intros m; unfold same_frame; destruct m; repeat split).
  assert (Hclean : forall m, same_frame m (with_clean_args m)).
  { intros m. unfold same_frame, with_clean_args.
    destruct (PyStr.nonempty (Meta.args m)); destruct m; repeat split. }
  assert (HF : Forall2 same_frame (meta d) (meta d')).
  { destruct Hm as [-> | ->].
    - clear -Hrefl. induction (meta d); constructor; auto.
    - apply format_metas_Forall2; assumption. }
  repeat split; auto.
  symmetry. eapply Forall2_length; eauto.
Qed.



(** ** Fragment descriptions *)

(** Whatever the width, a fragment with a non-empty description stops
    the run with [AttributeError]. *)
Lemma description_stops_run d width :
  0 < width ->
  Exists (fun m => PyStr.truthy (Meta.description m) = true) (meta d) ->
  raised (format_docstring_to_pep257 d width) = Some AttributeError.
Proof.
  intros Hw Hex.
  unfold format_docstring_to_pep257, format_short_description,
    format_long_description, format_all_meta.
  pose proof (format_metas_raises _ width Hex) as Hr.
  destruct d as [sd ld b1 b2 ms st]; simpl in *.
  destruct sd as [[|c1 s1]|]; simpl;
    try (destruct (fill_positive (PyStr.strip (String c1 s1)) width Hw)
           as (? & _ & ->); simpl);
    destruct ld as [[|c2 s2]|]; simpl;
    try (destruct (fill_positive (PyStr.strip (String c2 s2)) width Hw)
           as (? & _ & ->); simpl);
    destruct (format_metas ms width); simpl in *; congruence.
Qed.

(** C1: on the scenario of the specification (a Param fragment whose
    description is two lines, width 20) the run raises [AttributeError]
    and leaves the description as it was, where the rewrap of the
    specification gives three lines for the first source line and one
    for the second. *)
Theorem C1_description_rewrap_raises :
  format_docstring_to_pep257 (docstring_with_param (Some two_line_description))
    20
  = Raised AttributeError (docstring_with_param (Some two_line_description))
  /\ Spec.rewrap_description two_line_description 20
     = Ok ("line one that is" +:+ newline +:+ "quite long and will"
           +:+ newline +:+ "wrap" +:+ newline +:+ "line two").
Proof. split; vm_compute; reflexivity. Qed.

(** C7: a docstring whose only text is the description [ok] of one
    fragment is tidy and within width 72, and the run on it raises
    [AttributeError]: there is no first result to normalise again. *)
Theorem C7_idempotence_blocked :
  let d := docstring_with_param (Some "ok") in
  tidy_within 72 (short_description d)
  /\ tidy_within 72 (long_description d)
  /\ Forall (fun m => tidy_within 72 (Meta.description m)) (meta d)
  /\ format_docstring_to_pep257 d 72 = Raised AttributeError d.
Proof.
  simpl. repeat split; try (vm_compute; congruence).
  repeat constructor; vm_compute; congruence.
Qed.

(** ** Widths that [textwrap] rejects *)

(** With width [0] and a short description to wrap, the run raises
    [ValueError]. *)
Lemma C2_nonpositive_width_raises :
  0 <= 0
  /\ format_docstring_to_pep257 (docstring_with_short "x y") 0
     = Raised ValueError (docstring_with_short "x y").
Proof. split; [lia | vm_compute; reflexivity]. Qed.

Lemma format_returns d width :
  0 < width
  \/ (no_text (short_description d) /\ no_text (long_description d)) ->
  Forall (fun m => no_text (Meta.description m)) (meta d) ->
  exists d',
    format_docstring_to_pep257 d width = Normal d'
    /\ meta d' = map with_clean_args (meta d).
Proof.
  intros Hw Hm.
  unfold format_docstring_to_pep257, format_short_description,
    format_long_description, format_all_meta.
  pose proof (format_metas_no_text _ width Hm) as Hr.
  unfold no_text in Hw.
  destruct d as [sd ld b1 b2 ms st]; simpl in *.
  destruct sd as [[|c1 s1]|]; simpl in *;
    destruct ld as [[|c2 s2]|]; simpl in *;
    (destruct Hw as [Hw | [H1 H2]]; [|try discriminate]);
    try (destruct (fill_positive (PyStr.strip (String c1 s1)) width Hw)
           as (? & _ & ->); simpl);
    try (destruct (fill_positive (PyStr.strip (String c2 s2)) width Hw)
           as (? & _ & ->); simpl);
    rewrite Hr; simpl; eexists; split; reflexivity.
Qed.

(** C2 (amended): with [width <= 0], [textwrap.fill] raises [ValueError]
    for every text; the run raises [ValueError] and changes nothing when
    the short or the long description is a non-empty string; and when
    neither is and no fragment has a non-empty description, the run
    returns, having cleaned the [args] of the fragments only. *)
Theorem C2_nonpositive_width (d : Docstring) (width : Z) :
  width <= 0 ->
  (forall text, textwrap.fill text width = Raise ValueError)
  /\ (PyStr.truthy (short_description d) = true
      \/ PyStr.truthy (long_description d) = true ->
      format_docstring_to_pep257 d width = Raised ValueError d)
  /\ (no_text (short_description d) ->
      no_text (long_description d) ->
      Forall (fun m => no_text (Meta.description m)) (meta d) ->
      format_docstring_to_pep257 d width
      = Normal (set_meta (map with_clean_args (meta d)) d)).
Proof.
  intros Hw. split; [|split].
  - intros text. apply fill_nonpositive, Hw.
  - intros H.
    unfold format_docstring_to_pep257, format_short_description,
      format_long_description.
    destruct d as [sd ld b1 b2 ms st]; simpl in *.
    destruct sd as [[|c1 s1]|]; simpl in *;
      rewrite ?fill_nonpositive by exact Hw; simpl; try reflexivity;
      destruct ld as [[|c2 s2]|]; simpl in *;
      rewrite ?fill_nonpositive by exact Hw; simpl; try reflexivity;
      destruct H; discriminate.
  - intros Hs Hl Hm.
    unfold format_docstring_to_pep257, format_short_description,
      format_long_description, format_all_meta, no_text in *.
    destruct d as [sd ld b1 b2 ms st]; simpl in *.
    pose proof (format_metas_no_text _ width Hm) as Hr.
    destruct sd as [[|c1 s1]|]; try discriminate;
      destruct ld as [[|c2 s2]|]; try discriminate;
      simpl; rewrite Hr; reflexivity.
Qed.

(** The two cases at work: width [-1] with a short description, and
    width [0] with nothing to wrap. *)
Lemma C2_nonpositive_width_witness :
  format_docstring_to_pep257 (docstring_with_short "x y") (-1)
  = Raised ValueError (docstring_with_short "x y")
  /\ format_docstring_to_pep257 (docstring_with_untidy_args None) 0
     = Normal
         (set_meta
            (map with_clean_args (meta (docstring_with_untidy_args None)))
            (docstring_with_untidy_args None)).
Proof.
  split.
  - apply (C2_nonpositive_width (docstring_with_short "x y") (-1)).
    + lia.
    + left. reflexivity.
  - apply (C2_nonpositive_width (docstring_with_untidy_args None) 0).
    + lia.
    + reflexivity.
    + reflexivity.
    + repeat constructor.
Defined.

(** ** Cleaning [args] *)

Lemma clean_args_filter args :
  clean_args args
  = List.filter (fun a => negb (String.eqb a "")) (map PyStr.strip args).
Proof.
  induction args as [|arg rest IH]; simpl; [reflexivity|].
  rewrite IH. destruct (PyStr.strip arg); reflexivity.
Qed.

Lemma args_with_clean_args m :
  Meta.args (with_clean_args m) = clean_args (Meta.args m).
Proof.
  unfold with_clean_args.
  destruct (Meta.args m) eqn:E; simpl; [exact E|].
  destruct m; reflexivity.
Qed.

(** With width [0] and a short description to wrap, the run ends before
    the loop over [meta]: the [args] of the fragment are as they were. *)
Lemma C6_args_untouched_when_width_rejected :
  map Meta.args
    (meta (final_state
             (format_docstring_to_pep257
                (docstring_with_untidy_args (Some "x")) 0)))
  = [untidy_args]
  /\ untidy_args <> ["a"; "b"].
Proof. split; [vm_compute; reflexivity | discriminate]. Qed.

(** C6 (amended): when the width is positive, or there is no short or
    long description to wrap, and no fragment has a non-empty
    description, the run returns and every fragment has for [args] the
    stripped tokens of its former [args] that are not empty, in their
    order; the [args] of the scenario become [a], [b]. *)
Theorem C6_args_cleaned (d : Docstring) (width : Z) :
  0 < width
  \/ (no_text (short_description d) /\ no_text (long_description d)) ->
  Forall (fun m => no_text (Meta.description m)) (meta d) ->
  exists d',
    format_docstring_to_pep257 d width = Normal d'
    /\ Forall2
         (fun m m' =>
            Meta.args m'
            = List.filter (fun a => negb (String.eqb a ""))
                (map PyStr.strip (Meta.args m)))
         (meta d) (meta d')
    /\ clean_args untidy_args = ["a"; "b"].
Proof.
  intros Hw Hm.
  destruct (format_returns d width Hw Hm) as (d' & Hrun & Hmeta).
  exists d'. split; [exact Hrun|]. split; [|reflexivity].
  rewrite Hmeta. clear.
  induction (meta d) as [|m rest IH]; simpl; constructor; auto.
  rewrite args_with_clean_args. apply clean_args_filter.
Qed.

(** The cleaning at work: width 72, on a docstring with a short
    description and one fragment with the [args] of the scenario. *)
Lemma C6_args_cleaned_witness :
  exists d',
    format_docstring_to_pep257 (docstring_with_untidy_args (Some " x ")) 72
    = Normal d'
    /\ Forall2
         (fun m m' =>
            Meta.args m'
            = List.filter (fun a => negb (String.eqb a ""))
                (map PyStr.strip (Meta.args m)))
         (meta (docstring_with_untidy_args (Some " x "))) (meta d')
    /\ clean_args untidy_args = ["a"; "b"].
Proof.
  apply (C6_args_cleaned (docstring_with_untidy_args (Some " x ")) 72).
  - left. lia.
  - repeat constructor.
Defined.

(** ** Strings *)

Section Strings.

Import PyStr.

Lemma app_cons c a b : String c a +:+ b = String c (a +:+ b).
Proof. reflexivity. Qed.

Lemma app_empty_l b : "" +:+ b = b.
Proof. reflexivity. Qed.

Lemma app_empty_r a : a +:+ "" = a.
Proof.
  induction a as [|c a IH]; [reflexivity|]. rewrite app_cons, IH. reflexivity.
Qed.

Lemma len_nonneg s : 0 <= len s.
Proof. unfold len. lia. Qed.

Lemma len_app a b : len (a +:+ b) = len a + len b.
Proof.
  unfold len. induction a as [|c a IH]; simpl; [reflexivity|]. lia.
Qed.

Lemma length_take n s : String.length (take n s) = Nat.min n (String.length s).
Proof.
  revert s. induction n as [|n IH]; intros [|c s]; simpl; auto.
Qed.

Lemma length_drop n s : String.length (drop n s) = (String.length s - n)%nat.
Proof.
  revert s. induction n as [|n IH]; intros [|c s]; simpl; auto.
Qed.

Lemma take_drop n s : take n s +:+ drop n s = s.
Proof.
  revert s. induction n as [|n IH]; intros [|c s]; simpl; auto.
  rewrite app_cons. f_equal. apply IH.
Qed.

Lemma len_join_empty chunks : len (join "" chunks) = total_len chunks.
Proof.
  unfold join. induction chunks as [|a [|b rest] IH].
  - reflexivity.
  - simpl. lia.
  - change (String.concat "" (a :: b :: rest))
      with (a +:+ ("" +:+ String.concat "" (b :: rest))).
    rewrite len_app, app_empty_l. cbn [total_len] in *. lia.
Qed.

Lemma total_len_app a b : total_len (a ++ b) = total_len a + total_len b.
Proof. induction a as [|x a IH]; simpl; [lia|]. rewrite IH. lia. Qed.

Lemma total_len_nonneg l : 0 <= total_len l.
Proof.
  induction l as [|x l IH]; simpl; [lia|]. pose proof (len_nonneg x). lia.
Qed.

Lemma total_len_removelast l : total_len (removelast l) <= total_len l.
Proof.
  induction l as [|x [|y l] IH]; simpl in *;
    try pose proof (len_nonneg x); lia.
Qed.

Lemma slice_index_bound s i : 0 <= i -> Z.of_nat (slice_index s i) <= i.
Proof.
  intros H. unfold slice_index.
  destruct (Z.ltb_spec i 0); [lia|].
  pose proof (len_nonneg s). lia.
Qed.

Lemma len_slice_to s stop : 0 <= stop -> len (slice_to s stop) <= stop.
Proof.
  intros H. unfold slice_to, len. rewrite length_take.
  pose proof (slice_index_bound s stop H). lia.
Qed.

Lemma rfind_scan_le c lo hi pos s found :
  rfind_scan c lo hi pos s found <= Z.max found (Z.of_nat hi - 1).
Proof.
  revert pos found. induction s as [|x s IH]; intros pos found; simpl.
  - lia.
  - etransitivity; [apply IH|].
    destruct (Nat.ltb_spec pos hi);
      destruct ((lo <=? pos)%nat); destruct (Ascii.eqb x c); simpl; lia.
Qed.

Lemma rfind_le s c start stop :
  0 <= stop -> rfind s c start stop <= Z.max (-1) (stop - 1).
Proof.
  intros H. unfold rfind.
  pose proof (rfind_scan_le c (slice_index s start) (slice_index s stop)
                0 s (-1)).
  pose proof (slice_index_bound s stop H). lia.
Qed.

End Strings.

(** ** The lines of [_wrap_chunks] fit the width *)

Section LineWidth.

Import PyStr textwrap.

Variable width : Z.
Hypothesis width_positive : 1 <= width.

Lemma take_fitting_len chunks cur_line cur_len line n rest :
  total_len cur_line = cur_len ->
  cur_len <= width ->
  take_fitting width chunks cur_line cur_len = (line, n, rest) ->
  total_len line = n /\ n <= width.
Proof.
  revert cur_line cur_len.
  induction chunks as [|chunk chunks IH]; intros cur_line cur_len Hsum Hle;
    simpl.
  - intros [= <- <- <-]. auto.
  - destruct (Z.leb_spec (cur_len + len chunk) width) as [Hfit|Hfull].
    + apply IH; [|exact Hfit].
      rewrite total_len_app. simpl. lia.
    + intros [= <- <- <-]. auto.
Qed.

Lemma handle_long_word_len chunk cur_line cur_len line top' :
  total_len cur_line = cur_len ->
  cur_len <= width ->
  _handle_long_word chunk cur_line cur_len width = (line, top') ->
  total_len line <= width.
Proof.
  intros Hsum Hle. unfold _handle_long_word.
  destruct (Z.ltb_spec width 1) as [|_]; [lia|].
  set (space_left := width - cur_len).
  assert (Hspace : 0 <= space_left) by (unfold space_left; lia).
  intros [= <- _]. rewrite total_len_app. simpl.
  match goal with |- _ + (len (slice_to chunk ?e) + 0) <= _ =>
    assert (He : 0 <= e <= space_left); [|pose proof (len_slice_to chunk e)]
  end; [|unfold space_left in *; lia].
  destruct (len chunk >? space_left); [|lia].
  pose proof (rfind_le chunk "-" 0 space_left Hspace) as Hr.
  destruct (Z.gtb_spec (rfind chunk "-" 0 space_left) 0); simpl; [|lia].
  destruct (any_other_than _ _); lia.
Qed.

Lemma drop_last_blank_len cur_line :
  total_len (drop_last_blank cur_line) <= total_len cur_line.
Proof.
  unfold drop_last_blank. destruct (last cur_line) as [c|]; [|lia].
  destruct (String.eqb (strip c) ""); [apply total_len_removelast | lia].
Qed.

Lemma wrap_step_len chunk rest lines chunks' lines' :
  Forall (fun line => len line <= width) lines ->
  wrap_step width chunk rest lines = (chunks', lines') ->
  Forall (fun line => len line <= width) lines'.
Proof.
  intros Hlines. unfold wrap_step.
  destruct (take_fitting width _ [] 0) as [[cur_line cur_len] chunks2] eqn:Et.
  apply take_fitting_len in Et as [Hsum Hle]; [|reflexivity|lia].
  assert (Hline2 : forall cur_line2 chunks3,
    match chunks2 with
    | top :: below =>
        if len top >? width then
          let '(line, top') := _handle_long_word top cur_line cur_len width in
          (line, top' :: below)
        else (cur_line, chunks2)
    | [] => (cur_line, chunks2)
    end = (cur_line2, chunks3) -> total_len cur_line2 <= width).
  { intros cur_line2 chunks3.
    destruct chunks2 as [|top below]; [intros [= <- _]; lia|].
    destruct (len top >? width); [|intros [= <- _]; lia].
    destruct (_handle_long_word top cur_line cur_len width)
      as [line top'] eqn:Eh.
    intros [= <- _]. eapply handle_long_word_len; eauto. }
  destruct (match chunks2 with [] => _ | _ => _ end) as [cur_line2 chunks3].
  specialize (Hline2 _ _ eq_refl).
  intros [= _ <-].
  destruct (nonempty (drop_last_blank cur_line2)); [|exact Hlines].
  apply Forall_app. split; [exact Hlines|].
  constructor; [|constructor].
  rewrite len_join_empty.
  pose proof (drop_last_blank_len cur_line2). lia.
Qed.

Lemma wrap_loop_len fuel chunks lines :
  Forall (fun line => len line <= width) lines ->
  Forall (fun line => len line <= width) (wrap_loop fuel width chunks lines).
Proof.
  revert chunks lines. induction fuel as [|fuel IH]; intros chunks lines H.
  - destruct chunks; exact H.
  - destruct chunks as [|chunk rest]; [exact H|]. simpl.
    destruct (wrap_step width chunk rest lines) as [chunks' lines'] eqn:E.
    apply IH. eapply wrap_step_len; eauto.
Qed.

End LineWidth.

(** ** The outer loop of [_wrap_chunks] ends

    Every pass makes [weight chunks] smaller, so [weight chunks] passes
    are enough to empty [chunks]: the result does not depend on the
    amount of fuel once it is that large. *)

Section Termination.

Import PyStr textwrap.

Variable width : Z.
Hypothesis width_positive : 1 <= width.

Lemma take_fitting_weight chunks cur_line cur_len line n rest :
  take_fitting width chunks cur_line cur_len = (line, n, rest) ->
  (weight rest < weight chunks)%nat
  \/ (rest = chunks /\ line = cur_line /\ n = cur_len
      /\ match chunks with
         | [] => True
         | chunk :: _ => width < cur_len + len chunk
         end).
Proof.
  revert cur_line cur_len.
  induction chunks as [|chunk chunks IH]; intros cur_line cur_len; simpl.
  - intros [= <- <- <-]. right. auto.
  - destruct (Z.leb_spec (cur_len + len chunk) width) as [Hfit|Hfull].
    + intros E. apply IH in E as [Hlt | (-> & _)]; left; lia.
    + intros [= <- <- <-]. right. auto.
Qed.

Lemma handle_long_word_rest chunk cur_line cur_len line top' :
  cur_len <= width ->
  _handle_long_word chunk cur_line cur_len width = (line, top') ->
  (String.length top' <= String.length chunk)%nat
  /\ (cur_len = 0 -> width < len chunk ->
      (String.length top' < String.length chunk)%nat).
Proof.
  intros Hle. unfold _handle_long_word.
  destruct (Z.ltb_spec width 1) as [|_]; [lia|].
  intros [= _ <-]. unfold slice_from. rewrite length_drop.
  split; [lia|]. intros -> Hlong.
  rewrite Z.sub_0_r.
  destruct (Z.gtb_spec (len chunk) width) as [_|]; [|lia].
  match goal with |- context [slice_index chunk ?e] =>
    assert (He : 1 <= e)
  end.
  { destruct (Z.gtb_spec (rfind chunk "-" 0 width) 0); simpl; [|lia].
    destruct (any_other_than _ _); lia. }
  match goal with |- context [slice_index chunk ?e] =>
    assert (1 <= slice_index chunk e)%nat
  end.
  { unfold slice_index.
    match goal with |- context [?e <? 0] =>
      destruct (Z.ltb_spec e 0); [lia|]
    end. lia. }
  unfold len in Hlong. lia.
Qed.

Lemma wrap_step_weight chunk rest lines chunks' lines' :
  wrap_step width chunk rest lines = (chunks', lines') ->
  (weight chunks' < weight (chunk :: rest))%nat.
Proof.
  unfold wrap_step.
  set (chunks1 := if String.eqb (strip chunk) "" && nonempty lines
                  then rest else chunk :: rest).
  assert (H1 : chunks1 = rest \/ chunks1 = chunk :: rest)
    by (unfold chunks1; destruct (_ && _); auto).
  destruct (take_fitting width chunks1 [] 0)
    as [[cur_line cur_len] chunks2] eqn:Et.
  assert (H0 : 0 <= width) by lia.
  pose proof (take_fitting_len width chunks1 [] 0 _ _ _ eq_refl H0 Et)
    as [_ Hcur].
  apply take_fitting_weight in Et.
  destruct chunks2 as [|top below].
  - intros [= <- _]. simpl. lia.
  - destruct (Z.gtb_spec (len top) width) as [Hlong|Hshort].
    + destruct (_handle_long_word top cur_line cur_len width)
        as [line top'] eqn:Eh.
      apply handle_long_word_rest in Eh as [Hle Hlt]; [|exact Hcur].
      intros [= <- _].
      destruct Et as [Et | (Et & _ & -> & _)].
      * simpl in *. destruct H1 as [-> | ->]; simpl in *; lia.
      * specialize (Hlt eq_refl ltac:(lia)).
        rewrite <- Et in H1. simpl in *.
        destruct H1 as [<- | [= <- <-]]; simpl; lia.
    + intros [= <- _].
      destruct Et as [Et | (Et & _ & -> & Hfull)].
      * destruct H1 as [-> | ->]; simpl in *; lia.
      * rewrite <- Et in Hfull. lia.
Qed.

Lemma wrap_loop_fuel fuel1 fuel2 chunks lines :
  (weight chunks <= fuel1)%nat ->
  (weight chunks <= fuel2)%nat ->
  wrap_loop fuel1 width chunks lines = wrap_loop fuel2 width chunks lines.
Proof.
  revert fuel2 chunks lines.
  induction fuel1 as [|fuel1 IH]; intros fuel2 chunks lines H1 H2.
  - destruct chunks; [destruct fuel2; reflexivity | simpl in H1; lia].
  - destruct chunks as [|chunk rest]; [destruct fuel2; reflexivity|].
    destruct fuel2 as [|fuel2]; [simpl in H2; lia|].
    simpl wrap_loop.
    destruct (wrap_step width chunk rest lines) as [chunks' lines'] eqn:E.
    apply wrap_step_weight in E.
    apply IH; simpl in *; lia.
Qed.

End Termination.

(** ** [wordsep_re] cuts the text into consecutive non-empty chunks *)

Section Chunks.

Import PyStr textwrap.

Lemma match_word_positive before c rest : (1 <= match_word before c rest)%nat.
Proof.
  destruct rest as [|c' rest]; cbn [match_word];
    repeat match goal with
           | |- context [if ?b then _ else _] => destruct b
           end; lia.
Qed.

Lemma match_length_positive before c rest :
  (1 <= match_length before c rest)%nat.
Proof.
  unfold match_length, match_whitespace, match_em_dash, dashes_then_word.
  destruct (span is_whitespace (String c rest)) as [n r].
  destruct (Nat.leb_spec 1 n); [lia|].
  destruct (prev_is is_word_punct before).
  - destruct (span is_hyphen (String c rest)) as [k r'].
    destruct (Nat.leb_spec 2 k); simpl.
    + destruct (next_is is_word r'); [lia | apply match_word_positive].
    + apply match_word_positive.
  - apply match_word_positive.
Qed.

(** Enough fuel: the chunks put together are the text. *)
Lemma split_from_join fuel before text :
  (String.length text <= fuel)%nat ->
  join "" (split_from fuel before text) = text.
Proof.
  revert before text. induction fuel as [|fuel IH]; intros before text H.
  - destruct text; [reflexivity | simpl in H; lia].
  - destruct text as [|c rest]; [reflexivity|].
    cbn [split_from].
    pose proof (match_length_positive before c rest) as Hn.
    set (n := match_length before c rest) in *.
    set (chunk := take n (String c rest)).
    specialize (IH (rev (list_ascii_of_string chunk) ++ before)
                  (drop n (String c rest))).
    rewrite length_drop in IH. simpl in H.
    specialize (IH ltac:(simpl; lia)).
    unfold join in *.
    destruct (split_from fuel _ (drop n (String c rest))) as [|x l] eqn:E.
    + simpl in IH. simpl String.concat.
      pose proof (take_drop n (String c rest)) as Htd.
      rewrite <- IH in Htd. fold chunk in Htd.
      rewrite app_empty_r in Htd. exact Htd.
    + change (String.concat "" (chunk :: x :: l))
        with (chunk +:+ ("" +:+ String.concat "" (x :: l))).
      rewrite app_empty_l, IH. apply take_drop.
Qed.

Lemma split_from_fuel fuel1 fuel2 before text :
  (String.length text <= fuel1)%nat ->
  (String.length text <= fuel2)%nat ->
  split_from fuel1 before text = split_from fuel2 before text.
Proof.
  revert fuel2 before text.
  induction fuel1 as [|fuel1 IH]; intros fuel2 before text H1 H2.
  - destruct text; [destruct fuel2; reflexivity | simpl in H1; lia].
  - destruct text as [|c rest]; [destruct fuel2; reflexivity|].
    destruct fuel2 as [|fuel2]; [simpl in H2; lia|].
    cbn [split_from]. f_equal.
    pose proof (match_length_positive before c rest).
    apply IH; rewrite length_drop; simpl in *; lia.
Qed.

Lemma split_from_chunks_nonempty fuel before text :
  Forall (fun chunk => chunk <> "") (split_from fuel before text).
Proof.
  revert before text. induction fuel as [|fuel IH]; intros before text.
  - destruct text; constructor.
  - destruct text as [|c rest]; [constructor|].
    cbn [split_from]. constructor; [|apply IH].
    pose proof (match_length_positive before c rest).
    destruct (match_length before c rest); [lia | discriminate].
Qed.

End Chunks.

(** ** A class of characters that holds of the text holds of its lines *)

Section AllChars.

Import PyStr textwrap.

Variable p : ascii -> bool.

Lemma all_chars_app a b :
  all_chars p (a +:+ b) = all_chars p a && all_chars p b.
Proof.
  induction a as [|c a IH]; [reflexivity|].
  rewrite app_cons. simpl. rewrite IH. apply andb_assoc.
Qed.

Lemma all_chars_take n s : every_char p s -> every_char p (take n s).
Proof.
  unfold every_char. revert s.
  induction n as [|n IH]; intros [|c s]; simpl; auto.
  intros [-> H]%andb_true_iff. simpl. auto.
Qed.

Lemma all_chars_drop n s : every_char p s -> every_char p (drop n s).
Proof.
  unfold every_char. revert s.
  induction n as [|n IH]; intros [|c s]; simpl; auto.
  intros [_ H]%andb_true_iff. auto.
Qed.

Lemma all_chars_join_empty chunks :
  Forall (every_char p) chunks -> every_char p (join "" chunks).
Proof.
  unfold every_char, join. induction 1 as [|a l Ha Hl IH]; [reflexivity|].
  destruct l as [|b l]; [exact Ha|].
  change (String.concat "" (a :: b :: l))
    with (a +:+ ("" +:+ String.concat "" (b :: l))).
  rewrite app_empty_l, all_chars_app, Ha, IH. reflexivity.
Qed.

Lemma split_from_all fuel before text :
  every_char p text -> Forall (every_char p) (split_from fuel before text).
Proof.
  revert before text. induction fuel as [|fuel IH]; intros before text H.
  - destruct text; constructor.
  - destruct text as [|c rest]; [constructor|].
    cbn [split_from]. constructor.
    + apply all_chars_take, H.
    + apply IH, all_chars_drop, H.
Qed.

Lemma take_fitting_all width chunks cur_line cur_len line n rest :
  Forall (every_char p) chunks -> Forall (every_char p) cur_line ->
  take_fitting width chunks cur_line cur_len = (line, n, rest) ->
  Forall (every_char p) line /\ Forall (every_char p) rest.
Proof.
  revert cur_line cur_len.
  induction chunks as [|chunk chunks IH]; intros cur_line cur_len Hc Hl;
    simpl.
  - intros [= <- <- <-]. auto.
  - inversion Hc; subst.
    destruct (cur_len + len chunk <=? width).
    + apply IH; [assumption|]. apply Forall_app. auto.
    + intros [= <- <- <-]. auto.
Qed.

Lemma removelast_all (l : list string) :
  Forall (every_char p) l -> Forall (every_char p) (removelast l).
Proof.
  induction 1 as [|a l Ha Hl IH]; [constructor|].
  destruct l; [constructor|]. simpl in *. constructor; auto.
Qed.

Lemma drop_last_blank_all l :
  Forall (every_char p) l -> Forall (every_char p) (drop_last_blank l).
Proof.
  intros H. unfold drop_last_blank. destruct (last l); [|exact H].
  destruct (String.eqb _ _); [apply removelast_all|]; exact H.
Qed.

Lemma wrap_step_all width chunk rest lines chunks' lines' :
  Forall (every_char p) (chunk :: rest) -> Forall (every_char p) lines ->
  wrap_step width chunk rest lines = (chunks', lines') ->
  Forall (every_char p) chunks' /\ Forall (every_char p) lines'.
Proof.
  intros Hc Hl. unfold wrap_step.
  set (chunks1 := if String.eqb (strip chunk) "" && nonempty lines
                  then rest else chunk :: rest).
  assert (H1 : Forall (every_char p) chunks1).
  { unfold chunks1. destruct (_ && _); [inversion Hc|]; assumption. }
  destruct (take_fitting width chunks1 [] 0)
    as [[cur_line cur_len] chunks2] eqn:Et.
  apply take_fitting_all in Et as [Hline H2]; [|assumption|constructor].
  assert (H3 : forall cur_line2 chunks3,
    match chunks2 with
    | top :: below =>
        if len top >? width then
          let '(line, top') := _handle_long_word top cur_line cur_len width in
          (line, top' :: below)
        else (cur_line, chunks2)
    | [] => (cur_line, chunks2)
    end = (cur_line2, chunks3) ->
    Forall (every_char p) cur_line2 /\ Forall (every_char p) chunks3).
  { intros cur_line2 chunks3.
    destruct chunks2 as [|top below]; [intros [= <- <-]; auto|].
    destruct (len top >? width); [|intros [= <- <-]; auto].
    unfold _handle_long_word. intros [= <- <-].
    inversion H2; subst. split.
    - apply Forall_app. split; [assumption|].
      constructor; [|constructor]. apply all_chars_take. assumption.
    - constructor; [|assumption]. apply all_chars_drop. assumption. }
  destruct (match chunks2 with [] => _ | _ => _ end) as [cur_line2 chunks3].
  destruct (H3 _ _ eq_refl) as [Hline2 Hchunks3].
  intros [= <- <-]. split; [assumption|].
  destruct (nonempty (drop_last_blank cur_line2)); [|assumption].
  apply Forall_app. split; [assumption|].
  constructor; [|constructor].
  apply all_chars_join_empty, drop_last_blank_all, Hline2.
Qed.

Lemma wrap_loop_all fuel width chunks lines :
  Forall (every_char p) chunks -> Forall (every_char p) lines ->
  Forall (every_char p) (wrap_loop fuel width chunks lines).
Proof.
  revert chunks lines.
  induction fuel as [|fuel IH]; intros chunks lines Hc Hl.
  - destruct chunks; exact Hl.
  - destruct chunks as [|chunk rest]; [exact Hl|]. simpl.
    destruct (wrap_step width chunk rest lines) as [chunks' lines'] eqn:E.
    apply wrap_step_all in E as [? ?]; auto.
Qed.

End AllChars.

(** ** The lines of the filled text *)

Section Lines.

Import PyStr textwrap.

Lemma munge_no_newline text :
  all_chars not_newline (_munge_whitespace text) = true.
Proof.
  unfold _munge_whitespace. generalize (expandtabs 8 text). intros s.
  induction s as [|c s IH]; [reflexivity|]. simpl. rewrite IH, andb_true_r.
  unfold unicode_whitespace_trans.
  destruct (is_whitespace c) eqn:E; [reflexivity|].
  unfold not_newline. destruct (Ascii.eqb_spec c "010"); [|reflexivity].
  subst c. discriminate.
Qed.

Lemma split_no_newline s :
  all_chars not_newline s = true -> split "010" s = [s].
Proof.
  induction s as [|c s IH]; [reflexivity|]. simpl.
  intros [Hc Hs]%andb_true_iff. unfold not_newline in Hc.
  destruct (Ascii.eqb c "010"); [discriminate|]. rewrite IH by exact Hs.
  reflexivity.
Qed.

Lemma split_app_newline a b :
  all_chars not_newline a = true ->
  split "010" (a +:+ String "010" b) = a :: split "010" b.
Proof.
  induction a as [|c a IH]; [reflexivity|]. rewrite app_cons. simpl.
  intros [Hc Hs]%andb_true_iff. unfold not_newline in Hc.
  destruct (Ascii.eqb c "010"); [discriminate|]. rewrite IH by exact Hs.
  reflexivity.
Qed.

(** Splitting the joined lines gives the lines back. *)
Lemma split_join_lines lines :
  lines <> [] ->
  Forall (fun line => all_chars not_newline line = true) lines ->
  split "010" (join newline lines) = lines.
Proof.
  intros Hne H. unfold join, newline.
  induction H as [|a l Ha Hl IH]; [congruence|].
  destruct l as [|b l]; [apply split_no_newline, Ha|].
  change (String.concat (String "010" "") (a :: b :: l))
    with (a +:+ (String "010" "" +:+ String.concat (String "010" "") (b :: l))).
  rewrite app_cons, app_empty_l, split_app_newline by exact Ha.
  rewrite IH by discriminate. reflexivity.
Qed.

(** For a positive width [fill] returns, and each line of the text it
    returns is at most [width] long. *)
Lemma fill_lines_within text width :
  0 < width ->
  exists filled,
    fill text width = Ok filled /\ lines_within width filled.
Proof.
  intros Hw. unfold fill. rewrite wrap_positive by exact Hw.
  eexists. split; [reflexivity|].
  set (chunks := _split_chunks text).
  set (lines := wrap_loop (weight chunks) width chunks []).
  assert (Hlen : Forall (fun line => len line <= width) lines)
    by (apply wrap_loop_len; [lia | constructor]).
  assert (Hnl : Forall (fun line => all_chars not_newline line = true) lines).
  { apply wrap_loop_all; [|constructor].
    apply split_from_all, munge_no_newline. }
  unfold lines_within. destruct lines as [|line lines'] eqn:E.
  - simpl. constructor; [|constructor]. unfold len. simpl. lia.
  - fold newline. rewrite split_join_lines; [exact Hlen|discriminate|exact Hnl].
Qed.

End Lines.

(** ** [strip] *)

Section Strip.

Import PyStr.

Lemma length_lstrip s : (String.length (lstrip s) <= String.length s)%nat.
Proof.
  induction s as [|c s IH]; simpl; [lia|].
  destruct (isspace c); simpl; lia.
Qed.

Lemma length_rstrip s : (String.length (rstrip s) <= String.length s)%nat.
Proof.
  induction s as [|c s IH]; simpl; [lia|].
  destruct (rstrip s); [destruct (isspace c)|]; simpl in *; lia.
Qed.

(** A text that [strip] leaves alone is left alone by both halves. *)
Lemma strip_fixed s : strip s = s -> lstrip s = s /\ rstrip s = s.
Proof.
  unfold strip. intros H.
  assert (Hl : lstrip s = s).
  { destruct s as [|c s]; [reflexivity|]. simpl in *.
    destruct (isspace c); [|reflexivity].
    pose proof (length_rstrip (lstrip s)). pose proof (length_lstrip s).
    rewrite H in *. simpl in *. lia. }
  rewrite Hl in H. auto.
Qed.

Lemma rstrip_blank s : all_chars isspace s = true -> rstrip s = "".
Proof.
  induction s as [|c s IH]; [reflexivity|]. simpl.
  intros [Hc Hs]%andb_true_iff. rewrite IH, Hc by exact Hs. reflexivity.
Qed.

Lemma rstrip_app_blank a b :
  all_chars isspace b = true -> rstrip (a +:+ b) = rstrip a.
Proof.
  intros Hb. induction a as [|c a IH].
  - rewrite app_empty_l. apply rstrip_blank, Hb.
  - rewrite app_cons. simpl. rewrite IH. reflexivity.
Qed.

Lemma rstrip_nonblank c s : isspace c = false -> rstrip (String c s) <> "".
Proof.
  intros Hc. simpl. destruct (rstrip s); [rewrite Hc|]; discriminate.
Qed.

(** A chunk that [strip] empties is made of white space. *)
Lemma strip_empty_blank s : strip s = "" -> all_chars isspace s = true.
Proof.
  unfold strip. induction s as [|c s IH]; [reflexivity|]. simpl.
  destruct (isspace c) eqn:Hc; [exact IH|].
  intros H. exfalso. revert H. apply (rstrip_nonblank c s Hc).
Qed.

Lemma blank_strip_empty s : all_chars isspace s = true -> strip s = "".
Proof.
  unfold strip. induction s as [|c s IH]; [reflexivity|]. simpl.
  intros [-> Hs]%andb_true_iff. auto.
Qed.

Lemma lstrip_idem s : lstrip (lstrip s) = lstrip s.
Proof.
  induction s as [|c s IH]; [reflexivity|]. simpl.
  destruct (isspace c) eqn:Hc; [exact IH|]. simpl. rewrite Hc. reflexivity.
Qed.

Lemma rstrip_idem s : rstrip (rstrip s) = rstrip s.
Proof.
  induction s as [|c s IH]; [reflexivity|]. simpl.
  destruct (rstrip s) as [|c' r] eqn:E.
  - destruct (isspace c) eqn:Hc; [reflexivity|]. simpl. rewrite Hc.
    reflexivity.
  - cbn [rstrip] in *. rewrite IH. reflexivity.
Qed.

Lemma lstrip_rstrip s : lstrip s = s -> lstrip (rstrip s) = rstrip s.
Proof.
  destruct s as [|c s]; [reflexivity|]. simpl.
  destruct (isspace c) eqn:Hc.
  - intros H. pose proof (length_lstrip s) as Hlen. rewrite H in Hlen.
    simpl in Hlen. lia.
  - intros _. destruct (rstrip s); simpl; rewrite Hc; reflexivity.
Qed.

Lemma strip_idem s : strip (strip s) = strip s.
Proof.
  unfold strip.
  rewrite lstrip_rstrip by apply lstrip_idem. apply rstrip_idem.
Qed.

Lemma clean_args_idem args : clean_args (clean_args args) = clean_args args.
Proof.
  induction args as [|arg rest IH]; [reflexivity|]. simpl.
  destruct (strip arg) as [|c s] eqn:E; simpl; [exact IH|].
  rewrite <- E, strip_idem, E. simpl. rewrite IH. reflexivity.
Qed.

(** Cleaning the [args] of a fragment twice is cleaning them once: a
    fragment that [meta] holds at two positions ends as it would if it
    were held once. *)
Lemma with_clean_args_idem m :
  with_clean_args (with_clean_args m) = with_clean_args m.
Proof.
  assert (Hargs : forall a, Meta.args (Meta.set_args a m) = a)
    by (intros a; destruct m; reflexivity).
  unfold with_clean_args.
  destruct (nonempty (Meta.args m)) eqn:E; [|rewrite E; reflexivity].
  rewrite Hargs.
  destruct (nonempty (clean_args (Meta.args m))); [|reflexivity].
  rewrite clean_args_idem. destruct m; reflexivity.
Qed.

Lemma description_with_clean_args m :
  Meta.description (with_clean_args m) = Meta.description m.
Proof.
  unfold with_clean_args. destruct (nonempty (Meta.args m)); [|reflexivity].
  destruct m; reflexivity.
Qed.

End Strip.

(** ** Tidy text is a fixed point of the rewrap *)

Section Tidy.

Import PyStr textwrap.

Lemma is_whitespace_isspace c : is_whitespace c = true -> isspace c = true.
Proof. by_cases_on c. Qed.

Lemma tab_is_not_single_space c :
  Ascii.eqb c "009" = true ->
  (if isspace c then Ascii.eqb c " " else true) = false.
Proof. by_cases_on c. Qed.

Lemma space_is_fixed c :
  (if isspace c then Ascii.eqb c " " else true) = true ->
  unicode_whitespace_trans c = c.
Proof. by_cases_on c. Qed.

Lemma single_spaced_chars s :
  single_spaced s = true ->
  all_chars (fun c => if isspace c then Ascii.eqb c " " else true) s = true.
Proof.
  induction s as [|c s IH]; [reflexivity|]. simpl.
  intros [Hc Hs]%andb_true_iff. rewrite IH by exact Hs.
  destruct (isspace c); [|reflexivity].
  apply andb_true_iff in Hc as [-> _]. reflexivity.
Qed.

Lemma expandtabs_tidy col s :
  all_chars (fun c => if isspace c then Ascii.eqb c " " else true) s = true ->
  expandtabs_from 8 col s = s.
Proof.
  revert col. induction s as [|c s IH]; intros col; [reflexivity|]. simpl.
  intros [Hc Hs]%andb_true_iff.
  destruct (Ascii.eqb c "009") eqn:Etab.
  - apply tab_is_not_single_space in Etab. congruence.
  - rewrite IH by exact Hs. reflexivity.
Qed.

Lemma translate_tidy s :
  all_chars (fun c => if isspace c then Ascii.eqb c " " else true) s = true ->
  translate unicode_whitespace_trans s = s.
Proof.
  induction s as [|c s IH]; [reflexivity|]. simpl.
  intros [Hc Hs]%andb_true_iff.
  rewrite IH by exact Hs. rewrite space_is_fixed by exact Hc. reflexivity.
Qed.

Lemma munge_tidy s : single_spaced s = true -> _munge_whitespace s = s.
Proof.
  intros H%single_spaced_chars. unfold _munge_whitespace, expandtabs.
  rewrite expandtabs_tidy by exact H. apply translate_tidy, H.
Qed.

Lemma take_fitting_all_fit width chunks cur_line cur_len :
  cur_len + total_len chunks <= width ->
  take_fitting width chunks cur_line cur_len
  = (cur_line ++ chunks, cur_len + total_len chunks, []).
Proof.
  revert cur_line cur_len.
  induction chunks as [|chunk chunks IH]; intros cur_line cur_len H; simpl.
  - rewrite app_nil_r, Z.add_0_r. reflexivity.
  - simpl in H. pose proof (total_len_nonneg chunks).
    destruct (Z.leb_spec (cur_len + len chunk) width); [|lia].
    rewrite IH by lia. rewrite <- app_assoc, Z.add_assoc. reflexivity.
Qed.

Lemma join_empty_snoc chunks chunk :
  join "" (chunks ++ [chunk]) = join "" chunks +:+ chunk.
Proof.
  unfold join. induction chunks as [|a [|b l] IH].
  - reflexivity.
  - simpl. reflexivity.
  - change (String.concat "" ((a :: b :: l) ++ [chunk]))
      with (a +:+ ("" +:+ String.concat "" ((b :: l) ++ [chunk]))).
    change (String.concat "" (a :: b :: l))
      with (a +:+ ("" +:+ String.concat "" (b :: l))).
    rewrite IH, !app_empty_l.
    clear. induction a as [|c a IHa]; [reflexivity|].
    rewrite !app_cons, IHa. reflexivity.
Qed.

(** The last chunk of a text that does not end in white space is not
    blank, so the end of the line keeps it. *)
Lemma drop_last_blank_keeps chunks :
  Forall (fun chunk => chunk <> "") chunks ->
  rstrip (join "" chunks) = join "" chunks ->
  drop_last_blank chunks = chunks.
Proof.
  intros Hne Hfix. unfold drop_last_blank.
  destruct (last chunks) as [chunk|] eqn:El; [|reflexivity].
  destruct (String.eqb_spec (strip chunk) "") as [Hblank|]; [|reflexivity].
  exfalso. apply last_Some in El as [front ->].
  apply Forall_app in Hne as [_ Hc]. inversion Hc as [|? ? Hchunk _]; subst.
  apply strip_empty_blank in Hblank.
  rewrite join_empty_snoc, rstrip_app_blank in Hfix by exact Hblank.
  pose proof (length_rstrip (join "" front)) as Hlen.
  rewrite Hfix in Hlen.
  assert (len (join "" front +:+ chunk) = len (join "" front) + len chunk)
    by apply len_app.
  unfold len in *. destruct chunk; [congruence|]. simpl in *. lia.
Qed.

(** A tidy text no longer than the width is returned as it is. *)
Lemma fill_tidy s width :
  tidy s = true -> s <> "" -> len s <= width ->
  fill (strip s) width = Ok s.
Proof.
  unfold tidy. intros [Hstrip%String.eqb_eq Hsp]%andb_true_iff Hne Hlen.
  rewrite Hstrip. apply strip_fixed in Hstrip as [_ Hr].
  assert (Hw : 0 < width).
  { destruct s; [congruence|]. unfold len in Hlen. simpl in Hlen. lia. }
  unfold fill. rewrite wrap_positive by exact Hw.
  unfold _split_chunks. rewrite munge_tidy by exact Hsp. unfold _split.
  pose proof (split_from_join (String.length s) [] s (Nat.le_refl _)) as Hj.
  pose proof (split_from_chunks_nonempty (String.length s) [] s) as Hc.
  set (chunks := split_from (String.length s) [] s) in *.
  destruct chunks as [|chunk rest] eqn:E; [simpl in Hj; congruence|].
  cbn [weight wrap_loop]. unfold wrap_step.
  rewrite andb_false_r.
  rewrite take_fitting_all_fit
    by (rewrite Z.add_0_l, <- len_join_empty, Hj; exact Hlen).
  rewrite app_nil_l.
  rewrite drop_last_blank_keeps by (rewrite ?Hj; assumption).
  cbn [nonempty app]. rewrite Hj.
  destruct (String.length chunk + weight rest)%nat; reflexivity.
Qed.

Lemma format_short_tidy width d :
  tidy_within width (short_description d) ->
  format_short_description width d = Normal d.
Proof.
  unfold format_short_description, tidy_within.
  destruct d as [[[|c s]|] ld b1 b2 ms st]; simpl; try reflexivity.
  intros [Hlen Ht]. rewrite fill_tidy by (auto; discriminate). reflexivity.
Qed.

Lemma format_long_tidy width d :
  tidy_within width (long_description d) ->
  format_long_description width d = Normal d.
Proof.
  unfold format_long_description, tidy_within.
  destruct d as [sd [[|c s]|] b1 b2 ms st]; simpl; try reflexivity.
  intros [Hlen Ht]. rewrite fill_tidy by (auto; discriminate). reflexivity.
Qed.

(** X7: where the loop over the lines of a description is not reached
    (no fragment has a non-empty description), normalising is idempotent
    on tidy docstrings: the first run returns, and a second run returns
    the same state. *)
Theorem normalize_idempotent_without_descriptions (d : Docstring) (width : Z) :
  tidy_within width (short_description d) ->
  tidy_within width (long_description d) ->
  Forall (fun m => no_text (Meta.description m)) (meta d) ->
  exists d1,
    format_docstring_to_pep257 d width = Normal d1
    /\ format_docstring_to_pep257 d1 width = Normal d1.
Proof.
  intros Hs Hl Hm.
  exists (set_meta (map with_clean_args (meta d)) d).
  assert (Hrun : forall d0,
    tidy_within width (short_description d0) ->
    tidy_within width (long_description d0) ->
    Forall (fun m => no_text (Meta.description m)) (meta d0) ->
    format_docstring_to_pep257 d0 width
    = Normal (set_meta (map with_clean_args (meta d0)) d0)).
  { intros d0 H1 H2 H3. unfold format_docstring_to_pep257.
    rewrite format_short_tidy by exact H1. simpl.
    rewrite format_long_tidy by exact H2. simpl.
    unfold format_all_meta. rewrite format_metas_no_text by exact H3.
    reflexivity. }
  split; [apply Hrun; assumption|].
  rewrite Hrun; try assumption.
  - f_equal. unfold set_meta. simpl. f_equal.
    rewrite map_map. apply map_ext. intros m. apply with_clean_args_idem.
  - simpl. apply Forall_map. eapply Forall_impl; [exact Hm|].
    intros m H. simpl. rewrite description_with_clean_args. exact H.
Qed.

(** Two runs at width 72 on a tidy summary and a fragment with untidy
    [args]. *)
Lemma normalize_idempotent_without_descriptions_witness :
  exists d1,
    format_docstring_to_pep257
      (docstring_with_untidy_args (Some "Summary line.")) 72
    = Normal d1
    /\ format_docstring_to_pep257 d1 72 = Normal d1.
Proof.
  apply (normalize_idempotent_without_descriptions
           (docstring_with_untidy_args (Some "Summary line.")) 72).
  - split; [vm_compute; congruence | reflexivity].
  - exact I.
  - repeat constructor.
Defined.

End Tidy.

(** ** The rewrap changes white space only *)

Section Visible.

Import PyStr textwrap.

Lemma append_assoc a b c : (a +:+ b) +:+ c = a +:+ (b +:+ c).
Proof.
  induction a as [|x a IH]; [reflexivity|]. rewrite !app_cons, IH.
  reflexivity.
Qed.

Lemma join_empty_cons chunk chunks :
  join "" (chunk :: chunks) = chunk +:+ join "" chunks.
Proof.
  unfold join. destruct chunks as [|b l].
  - simpl. symmetry. apply app_empty_r.
  - reflexivity.
Qed.

Lemma join_empty_app a b : join "" (a ++ b) = join "" a +:+ join "" b.
Proof.
  induction a as [|x a IH]; [reflexivity|].
  rewrite <- app_comm_cons, !join_empty_cons, IH, append_assoc. reflexivity.
Qed.

Lemma visible_app a b : visible (a +:+ b) = visible a +:+ visible b.
Proof.
  induction a as [|c a IH]; [reflexivity|]. rewrite app_cons. simpl.
  destruct (isspace c); [exact IH|]. rewrite app_cons, IH. reflexivity.
Qed.

Lemma visible_blank s : all_chars isspace s = true -> visible s = "".
Proof.
  induction s as [|c s IH]; [reflexivity|]. simpl.
  intros [-> Hs]%andb_true_iff. auto.
Qed.

Lemma visible_lstrip s : visible (lstrip s) = visible s.
Proof.
  induction s as [|c s IH]; [reflexivity|]. simpl.
  destruct (isspace c) eqn:E; [exact IH|]. simpl. rewrite E. reflexivity.
Qed.

Lemma visible_rstrip s : visible (rstrip s) = visible s.
Proof.
  induction s as [|c s IH]; [reflexivity|]. simpl.
  destruct (rstrip s) as [|c' r] eqn:E.
  - simpl in IH. destruct (isspace c) eqn:Ec; simpl; rewrite ?Ec, <- IH;
      reflexivity.
  - cbn [visible] in *. rewrite IH. reflexivity.
Qed.

Lemma visible_strip s : visible (strip s) = visible s.
Proof. unfold strip. rewrite visible_rstrip. apply visible_lstrip. Qed.

Lemma visible_spaces n : visible (spaces n) = "".
Proof. induction n as [|n IH]; [reflexivity|]. exact IH. Qed.

Lemma visible_expandtabs tabsize col s :
  visible (expandtabs_from tabsize col s) = visible s.
Proof.
  revert col. induction s as [|c s IH]; intros col; [reflexivity|]. simpl.
  destruct (Ascii.eqb_spec c "009") as [->|Hc].
  - simpl. destruct (0 <? tabsize); [|apply IH].
    rewrite visible_app, visible_spaces, app_empty_l. apply IH.
  - simpl. rewrite IH. reflexivity.
Qed.

Lemma visible_translate s :
  visible (translate unicode_whitespace_trans s) = visible s.
Proof.
  induction s as [|c s IH]; [reflexivity|]. simpl. rewrite IH.
  unfold unicode_whitespace_trans.
  destruct (is_whitespace c) eqn:E; [|reflexivity].
  rewrite (is_whitespace_isspace c E). reflexivity.
Qed.

Lemma visible_munge text : visible (_munge_whitespace text) = visible text.
Proof.
  unfold _munge_whitespace, expandtabs.
  rewrite visible_translate. apply visible_expandtabs.
Qed.

Lemma visible_take_drop n s :
  visible (take n s) +:+ visible (drop n s) = visible s.
Proof. rewrite <- visible_app, take_drop. reflexivity. Qed.

Lemma visible_join_lines_snoc lines line :
  visible (join newline (lines ++ [line]))
  = visible (join newline lines) +:+ visible line.
Proof.
  unfold join, newline. induction lines as [|a [|b l] IH].
  - reflexivity.
  - simpl. rewrite visible_app. reflexivity.
  - change (String.concat (String "010" "") ((a :: b :: l) ++ [line]))
      with (a +:+ (String "010" ""
                   +:+ String.concat (String "010" "") ((b :: l) ++ [line]))).
    change (String.concat (String "010" "") (a :: b :: l))
      with (a +:+ (String "010" ""
                   +:+ String.concat (String "010" "") (b :: l))).
    rewrite !visible_app, IH, !append_assoc. reflexivity.
Qed.

Lemma take_fitting_join width chunks cur_line cur_len line n rest :
  take_fitting width chunks cur_line cur_len = (line, n, rest) ->
  join "" line +:+ join "" rest = join "" cur_line +:+ join "" chunks.
Proof.
  revert cur_line cur_len.
  induction chunks as [|chunk chunks IH]; intros cur_line cur_len;
    cbn [take_fitting].
  - intros [= <- <- <-]. reflexivity.
  - destruct (cur_len + len chunk <=? width).
    + intros E%IH. rewrite E, join_empty_app, !join_empty_cons.
      rewrite !append_assoc. reflexivity.
    + intros [= <- <- <-]. reflexivity.
Qed.

Lemma visible_drop_last_blank cur_line :
  visible (join "" (drop_last_blank cur_line)) = visible (join "" cur_line).
Proof.
  unfold drop_last_blank.
  destruct (last cur_line) as [chunk|] eqn:El; [|reflexivity].
  destruct (String.eqb_spec (strip chunk) "") as [Hblank|]; [|reflexivity].
  apply last_Some in El as [front ->].
  rewrite removelast_last, join_empty_app, visible_app.
  rewrite join_empty_cons, app_empty_r.
  rewrite (visible_blank chunk) by (apply strip_empty_blank, Hblank).
  rewrite app_empty_r. reflexivity.
Qed.

Lemma nonempty_false_inv {A} (l : list A) : nonempty l = false -> l = [].
Proof. destruct l; [reflexivity | discriminate]. Qed.

(** One pass moves visible characters from the chunks to the lines and
    loses none. *)
Lemma wrap_step_visible width chunk rest lines chunks' lines' :
  wrap_step width chunk rest lines = (chunks', lines') ->
  visible (join newline lines') +:+ visible (join "" chunks')
  = visible (join newline lines) +:+ visible (join "" (chunk :: rest)).
Proof.
  unfold wrap_step.
  set (chunks1 := if String.eqb (strip chunk) "" && nonempty lines
                  then rest else chunk :: rest).
  assert (H1 : visible (join "" chunks1) = visible (join "" (chunk :: rest))).
  { unfold chunks1.
    destruct (String.eqb_spec (strip chunk) "") as [Hblank|]; [|reflexivity].
    destruct (nonempty lines); [|reflexivity]. simpl andb. cbv iota.
    rewrite join_empty_cons, visible_app.
    rewrite (visible_blank chunk) by (apply strip_empty_blank, Hblank).
    reflexivity. }
  rewrite <- H1. clear H1. generalize chunks1. clear chunks1. intros chunks1.
  destruct (take_fitting width chunks1 [] 0)
    as [[cur_line cur_len] chunks2] eqn:Et.
  apply take_fitting_join in Et. rewrite app_empty_l in Et. rewrite <- Et.
  assert (H3 : forall cur_line2 chunks3,
    match chunks2 with
    | top :: below =>
        if len top >? width then
          let '(line, top') := _handle_long_word top cur_line cur_len width in
          (line, top' :: below)
        else (cur_line, chunks2)
    | [] => (cur_line, chunks2)
    end = (cur_line2, chunks3) ->
    join "" cur_line2 +:+ join "" chunks3
    = join "" cur_line +:+ join "" chunks2).
  { intros cur_line2 chunks3.
    destruct chunks2 as [|top below]; [intros [= <- <-]; reflexivity|].
    destruct (len top >? width); [|intros [= <- <-]; reflexivity].
    unfold _handle_long_word, slice_to, slice_from. intros [= <- <-].
    rewrite join_empty_app, !join_empty_cons, !append_assoc.
    f_equal. simpl join. rewrite app_empty_l, <- append_assoc, take_drop.
    reflexivity. }
  destruct (match chunks2 with [] => _ | _ => _ end) as [cur_line2 chunks3].
  specialize (H3 _ _ eq_refl). rewrite <- H3.
  intros [= <- <-]. rewrite (visible_app (join "" cur_line2)).
  rewrite <- (visible_drop_last_blank cur_line2).
  destruct (nonempty (drop_last_blank cur_line2)) eqn:En.
  - rewrite visible_join_lines_snoc, append_assoc. reflexivity.
  - apply nonempty_false_inv in En. rewrite En. reflexivity.
Qed.

Lemma wrap_loop_visible fuel width chunks lines :
  1 <= width ->
  (weight chunks <= fuel)%nat ->
  visible (join newline (wrap_loop fuel width chunks lines))
  = visible (join newline lines) +:+ visible (join "" chunks).
Proof.
  intros Hw. revert chunks lines.
  induction fuel as [|fuel IH]; intros chunks lines Hfuel.
  - destruct chunks; [|simpl in Hfuel; lia]. simpl.
    symmetry. apply app_empty_r.
  - destruct chunks as [|chunk rest].
    + simpl. symmetry. apply app_empty_r.
    + cbn [wrap_loop].
      destruct (wrap_step width chunk rest lines) as [chunks' lines'] eqn:E.
      pose proof (wrap_step_weight width Hw _ _ _ _ _ E) as Hlt.
      rewrite IH by (simpl in *; lia).
      eapply wrap_step_visible. exact E.
Qed.

(** [fill] keeps the visible characters of the text. *)
Lemma fill_visible text width filled :
  fill text width = Ok filled -> visible filled = visible text.
Proof.
  unfold fill, wrap, _wrap_chunks.
  destruct (Z.leb_spec width 0) as [|Hw]; [discriminate|].
  intros [= <-]. fold newline.
  rewrite wrap_loop_visible by lia.
  simpl. unfold _split_chunks, _split.
  rewrite split_from_join by lia. apply visible_munge.
Qed.

End Visible.

(** ** Short and long descriptions *)

(** A word longer than the width is cut into pieces that fit, and a
    hyphenated word that would fit on a line of its own is broken after
    its hyphen: in both runs the words of the result are not the words
    of the text. *)
Lemma C5_breaks_inside_words :
  format_docstring_to_pep257 (docstring_with_short "abcdefghijkl") 5
  = Normal (docstring_with_short
              ("abcde" +:+ newline +:+ "fghij" +:+ newline +:+ "kl"))
  /\ words ("abcde" +:+ newline +:+ "fghij" +:+ newline +:+ "kl")
     <> words "abcdefghijkl"
  /\ ~ In "abcdefghijkl"
       (PyStr.split "010"
          ("abcde" +:+ newline +:+ "fghij" +:+ newline +:+ "kl"))
  /\ format_docstring_to_pep257 (docstring_with_short "a well-known") 10
     = Normal (docstring_with_short ("a well-" +:+ newline +:+ "known"))
  /\ words ("a well-" +:+ newline +:+ "known") <> words "a well-known".
Proof.
  repeat split; try (vm_compute; reflexivity); try (vm_compute; discriminate).
  vm_compute. intros [H|[H|[H|[]]]]; discriminate.
Qed.

Lemma fill_empty width : 0 < width -> textwrap.fill "" width = Ok "".
Proof.
  intros H. unfold textwrap.fill. rewrite wrap_positive by exact H.
  reflexivity.
Qed.

Lemma lines_within_empty width : 0 < width -> lines_within width "".
Proof.
  intros H. constructor; [|constructor]. unfold PyStr.len. simpl. lia.
Qed.

(** Lines 237-238 with a positive width: the step does not raise. *)
Lemma format_short_positive width d :
  0 < width ->
  exists d1,
    format_short_description width d = Normal d1
    /\ long_description d1 = long_description d
    /\ meta d1 = meta d
    /\ (forall text,
          short_description d = Some text ->
          exists filled,
            textwrap.fill (PyStr.strip text) width = Ok filled
            /\ short_description d1 = Some filled
            /\ lines_within width filled
            /\ visible filled = visible text).
Proof.
  intros Hw. unfold format_short_description.
  destruct (short_description d) as [[|c s]|] eqn:E; simpl.
  - exists d. repeat split; auto. intros text [= <-]. exists "".
    rewrite fill_empty by exact Hw. auto using lines_within_empty.
  - destruct (fill_lines_within (PyStr.strip (String c s)) width Hw)
      as (f & Ef & Lf).
    rewrite Ef. eexists. repeat split. intros text [= <-]. exists f.
    repeat split; auto.
    rewrite (fill_visible _ _ _ Ef). apply visible_strip.
  - exists d. repeat split; auto. discriminate.
Qed.

(** Lines 239-240 with a positive width. *)
Lemma format_long_positive width d :
  0 < width ->
  exists d1,
    format_long_description width d = Normal d1
    /\ short_description d1 = short_description d
    /\ meta d1 = meta d
    /\ (forall text,
          long_description d = Some text ->
          exists filled,
            textwrap.fill (PyStr.strip text) width = Ok filled
            /\ long_description d1 = Some filled
            /\ lines_within width filled
            /\ visible filled = visible text).
Proof.
  intros Hw. unfold format_long_description.
  destruct (long_description d) as [[|c s]|] eqn:E; simpl.
  - exists d. repeat split; auto. intros text [= <-]. exists "".
    rewrite fill_empty by exact Hw. auto using lines_within_empty.
  - destruct (fill_lines_within (PyStr.strip (String c s)) width Hw)
      as (f & Ef & Lf).
    rewrite Ef. eexists. repeat split. intros text [= <-]. exists f.
    repeat split; auto.
    rewrite (fill_visible _ _ _ Ef). apply visible_strip.
  - exists d. repeat split; auto. discriminate.
Qed.

(** The loop over [meta] leaves the two descriptions as they are. *)
Lemma format_all_meta_descriptions width d :
  short_description (final_state (format_all_meta width d))
  = short_description d
  /\ long_description (final_state (format_all_meta width d))
     = long_description d.
Proof.
  unfold format_all_meta. destruct (format_metas (meta d) width); auto.
Qed.

(** C5 (amended): for a positive width, a short description that is set
    is replaced by [textwrap.fill] of the stripped text; every line of
    the result is at most [width] long, a word longer than [width]
    being split, and the result has the characters of the text that are
    not white space, in their order; the same holds of the long
    description; and [This is a test.] at width 10 becomes [This is a]
    and [test.] on two lines.  The state is the one the run ends in, by
    return or by exception. *)
Theorem C5_descriptions_rewrapped (d : Docstring) (width : Z) :
  0 < width ->
  let d' := final_state (format_docstring_to_pep257 d width) in
  (forall text,
     short_description d = Some text ->
     exists filled,
       textwrap.fill (PyStr.strip text) width = Ok filled
       /\ short_description d' = Some filled
       /\ lines_within width filled
       /\ visible filled = visible text)
  /\ (forall text,
        long_description d = Some text ->
        exists filled,
          textwrap.fill (PyStr.strip text) width = Ok filled
          /\ long_description d' = Some filled
          /\ lines_within width filled
          /\ visible filled = visible text)
  /\ format_docstring_to_pep257 (docstring_with_short "This is a test.") 10
     = Normal (docstring_with_short ("This is a" +:+ newline +:+ "test.")).
Proof.
  intros Hw d'. subst d'. unfold format_docstring_to_pep257.
  destruct (format_short_positive width d Hw) as (d1 & -> & Hl1 & _ & Hs1).
  destruct (format_long_positive width d1 Hw) as (d2 & E2 & Hs2 & _ & Hl2).
  simpl. rewrite E2. simpl.
  destruct (format_all_meta_descriptions width d2) as [-> ->].
  split; [|split; [|vm_compute; reflexivity]].
  - intros text Ht. rewrite Hs2. auto.
  - intros text Ht. apply Hl2. congruence.
Qed.

(** The rewrap at work: width 20, on a short description with white
    space at both ends. *)
Lemma C5_descriptions_rewrapped_witness :
  exists filled,
    textwrap.fill (PyStr.strip "  A summary that is longer than the width.  ")
      20
    = Ok filled
    /\ short_description
         (final_state
            (format_docstring_to_pep257
               (docstring_with_short
                  "  A summary that is longer than the width.  ") 20))
       = Some filled
    /\ lines_within 20 filled
    /\ visible filled
       = visible "  A summary that is longer than the width.  ".
Proof.
  apply (C5_descriptions_rewrapped
           (docstring_with_short
              "  A summary that is longer than the width.  ") 20).
  - lia.
  - reflexivity.
Defined.

(** * Further properties *)

(** ** How a run ends *)

Lemma format_metas_raised items width :
  raised (format_metas items width)
  = if existsb (fun m => PyStr.truthy (Meta.description m)) items
    then Some AttributeError else None.
Proof.
  induction items as [|m rest IH]; [reflexivity|]. simpl.
  rewrite format_meta_eq.
  destruct (PyStr.truthy (Meta.description m)); [reflexivity|]. simpl.
  destruct (format_metas rest width); simpl in *; exact IH.
Qed.

(** The two description steps return when the width is positive or
    there is nothing for them to wrap, and leave [meta] alone. *)
Lemma description_steps_return d width :
  0 < width
  \/ (no_text (short_description d) /\ no_text (long_description d)) ->
  exists d2,
    and_then (format_short_description width d)
      (format_long_description width)
    = Normal d2
    /\ meta d2 = meta d.
Proof.
  intros [Hw | [Hs Hl]].
  - destruct (format_short_positive width d Hw) as (d1 & -> & _ & Hm1 & _).
    destruct (format_long_positive width d1 Hw) as (d2 & E2 & _ & Hm2 & _).
    exists d2. simpl. split; [exact E2 | congruence].
  - exists d. unfold format_short_description, format_long_description,
      no_text in *.
    destruct d as [[[|c1 s1]|] [[|c2 s2]|] b1 b2 ms st];
      simpl in *; try discriminate; auto.
Qed.

(** X1: the run raises [ValueError] exactly when the width is not
    positive and the short or the long description is a non-empty
    string; failing that, it raises [AttributeError] exactly when a
    fragment has a non-empty description; and it returns otherwise. *)
Theorem X1_how_the_run_ends (d : Docstring) (width : Z) :
  raised (format_docstring_to_pep257 d width)
  = if (width <=? 0)
       && (PyStr.truthy (short_description d)
           || PyStr.truthy (long_description d))
    then Some ValueError
    else if existsb (fun m => PyStr.truthy (Meta.description m)) (meta d)
         then Some AttributeError
         else None.
Proof.
  assert (Hmeta : forall d2,
    meta d2 = meta d ->
    raised (format_all_meta width d2)
    = if existsb (fun m => PyStr.truthy (Meta.description m)) (meta d)
      then Some AttributeError else None).
  { intros d2 E. unfold format_all_meta.
    rewrite <- E, <- (format_metas_raised (meta d2) width).
    destruct (format_metas (meta d2) width); reflexivity. }
  unfold format_docstring_to_pep257.
  destruct (Z.leb_spec width 0) as [Hw|Hw].
  - destruct (PyStr.truthy (short_description d)) eqn:Es.
    + unfold format_short_description.
      apply truthy_Some_inv in Es as (c & s & ->). simpl.
      rewrite fill_nonpositive by exact Hw. reflexivity.
    + assert (E1 : format_short_description width d = Normal d).
      { unfold format_short_description.
        destruct (short_description d) as [[|c s]|];
          simpl in *; try discriminate; reflexivity. }
      rewrite E1. simpl.
      destruct (PyStr.truthy (long_description d)) eqn:El.
      * unfold format_long_description.
        apply truthy_Some_inv in El as (c & s & ->). simpl.
        rewrite fill_nonpositive by exact Hw. reflexivity.
      * assert (E2 : format_long_description width d = Normal d).
        { unfold format_long_description.
          destruct (long_description d) as [[|c s]|];
            simpl in *; try discriminate; reflexivity. }
        rewrite E2. simpl. apply Hmeta. reflexivity.
  - destruct (description_steps_return d width (or_introl Hw))
      as (d2 & -> & Hm).
    simpl. apply Hmeta, Hm.
Qed.

(** X2: no run changes the description of a fragment: after it, each
    fragment has the description it had. *)
Theorem X2_descriptions_never_change (d : Docstring) (width : Z) :
  map Meta.description (meta (final_state (format_docstring_to_pep257 d width)))
  = map Meta.description (meta d).
Proof.
  destruct (final_state_cases d width) as (_ & _ & _ & Hm & _).
  destruct Hm as [-> | ->]; [reflexivity|].
  assert (H : Forall2 (fun m m' => Meta.description m' = Meta.description m)
                (meta d) (final_state (format_metas (meta d) width))).
  { apply format_metas_Forall2; [reflexivity|].
    intros m. apply description_with_clean_args. }
  induction H as [|m m' l l' Hd _ IH]; [reflexivity|].
  simpl. rewrite Hd, IH. reflexivity.
Qed.

Lemma format_metas_stops before m after width :
  Forall (fun x => no_text (Meta.description x)) before ->
  PyStr.truthy (Meta.description m) = true ->
  format_metas (before ++ m :: after) width
  = Raised AttributeError (map with_clean_args before ++ m :: after).
Proof.
  intros Hb Hm. induction Hb as [|x before Hx _ IH]; simpl.
  - rewrite format_meta_eq, Hm. reflexivity.
  - rewrite format_meta_eq, Hx, IH. reflexivity.
Qed.

(** X3: when the description steps do not raise and [m] is the first
    fragment with a non-empty description, the run raises
    [AttributeError] at [m]: the fragments before [m] have their [args]
    cleaned already, [m] and the fragments after it are as they were. *)
Theorem X3_stops_at_first_description (d : Docstring) (width : Z)
  (before : list DocstringMeta) (m : DocstringMeta)
  (after : list DocstringMeta) :
  0 < width
  \/ (no_text (short_description d) /\ no_text (long_description d)) ->
  meta d = before ++ m :: after ->
  Forall (fun x => no_text (Meta.description x)) before ->
  PyStr.truthy (Meta.description m) = true ->
  exists d',
    format_docstring_to_pep257 d width = Raised AttributeError d'
    /\ meta d' = map with_clean_args before ++ m :: after.
Proof.
  intros Hw Hmeta Hb Hm. unfold format_docstring_to_pep257.
  destruct (description_steps_return d width Hw) as (d2 & -> & Hm2).
  simpl. unfold format_all_meta.
  rewrite Hm2, Hmeta, format_metas_stops by assumption.
  eexists. split; reflexivity.
Qed.

(** A run on two fragments without description and a third with one. *)
Lemma X3_stops_at_first_description_witness :
  exists d',
    format_docstring_to_pep257
      (set_meta
         [MetaBase untidy_args None;
          DocstringRaises [" raises "; "KeyError"] (Some "if missing")
            (Some "KeyError");
          MetaBase untidy_args None]
         (docstring_with_short "A summary."))
      72
    = Raised AttributeError d'
    /\ meta d'
       = map with_clean_args [MetaBase untidy_args None]
         ++ DocstringRaises [" raises "; "KeyError"] (Some "if missing")
              (Some "KeyError")
            :: [MetaBase untidy_args None].
Proof.
  apply (X3_stops_at_first_description
           (set_meta
              [MetaBase untidy_args None;
               DocstringRaises [" raises "; "KeyError"] (Some "if missing")
                 (Some "KeyError");
               MetaBase untidy_args None]
              (docstring_with_short "A summary."))
           72).
  - left. lia.
  - reflexivity.
  - repeat constructor.
  - reflexivity.
Defined.

(** ** The views of a normalised docstring *)

Section ViewsOfRelated.

Variable R : DocstringMeta -> DocstringMeta -> Prop.
Hypothesis R_class : forall m m', R m m' -> class_of m' = class_of m.
Variable cls : MetaClass.

Lemma instances_of_Forall2 items items' :
  Forall2 R items items' ->
  Forall2 R (instances_of cls items) (instances_of cls items').
Proof.
  induction 1 as [|m m' l l' Hm _ IH]; simpl; [constructor|].
  unfold isinstance. rewrite (R_class _ _ Hm).
  destruct (MetaClass_eqb (class_of m) cls); [constructor|]; assumption.
Qed.

Lemma first_instance_of_Forall2 items items' :
  Forall2 R items items' ->
  option_Forall2 R (first_instance_of cls items)
    (first_instance_of cls items').
Proof.
  induction 1 as [|m m' l l' Hm _ IH]; simpl; [constructor|].
  unfold isinstance. rewrite (R_class _ _ Hm).
  destruct (MetaClass_eqb (class_of m) cls); [constructor|]; assumption.
Qed.

End ViewsOfRelated.

Lemma meta_same_frame d width :
  Forall2 same_frame (meta d)
    (meta (final_state (format_docstring_to_pep257 d width))).
Proof.
  destruct (final_state_cases d width) as (_ & _ & _ & Hm & _).
  assert (Hrefl : forall m, same_frame m m)
    by (intros m; unfold same_frame; destruct m; repeat split).
  destruct Hm as [-> | ->].
  - induction (meta d); constructor; auto.
  - apply format_metas_Forall2; [exact Hrefl|].
    intros m. unfold same_frame, with_clean_args.
    destruct (PyStr.nonempty (Meta.args m)); destruct m; repeat split.
Qed.

(** X4: however the run ends, each view of the docstring has as many
    fragments as before, and the fragment at each position of a view
    (the one fragment, for [returns] and [deprecation]) is the former
    one up to [args] and [description]; a view that was [None] or empty
    still is. *)
Theorem X4_views_after_run (d : Docstring) (width : Z) :
  let d' := final_state (format_docstring_to_pep257 d width) in
  Forall2 same_frame (params d) (params d')
  /\ Forall2 same_frame (raises d) (raises d')
  /\ Forall2 same_frame (many_returns d) (many_returns d')
  /\ Forall2 same_frame (examples d) (examples d')
  /\ Forall2 same_frame (notes d) (notes d')
  /\ option_Forall2 same_frame (returns d) (returns d')
  /\ option_Forall2 same_frame (deprecation d) (deprecation d').
Proof.
  intros d'. pose proof (meta_same_frame d width) as H. fold d' in H.
  assert (Hclass : forall m m', same_frame m m' -> class_of m' = class_of m)
    by (intros m m' Hf; apply Hf).
  unfold params, raises, many_returns, examples, notes, returns, deprecation.
  repeat split;
    first [ apply instances_of_Forall2; assumption
          | apply first_instance_of_Forall2; assumption ].
Qed.

(** ** The views of a [meta] in two parts *)

Lemma instances_of_app cls items items' :
  instances_of cls (items ++ items')
  = instances_of cls items ++ instances_of cls items'.
Proof.
  induction items as [|m rest IH]; [reflexivity|]. simpl.
  destruct (isinstance m cls); rewrite IH; reflexivity.
Qed.

Lemma first_instance_of_app cls items items' :
  first_instance_of cls (items ++ items')
  = match first_instance_of cls items with
    | Some x => Some x
    | None => first_instance_of cls items'
    end.
Proof.
  induction items as [|m rest IH]; [reflexivity|]. simpl.
  destruct (isinstance m cls); [reflexivity | exact IH].
Qed.

(** X5: when the [meta] of a docstring is the [meta] of a first
    docstring followed by that of a second, each of its list views is
    the view of the first followed by the view of the second, and its
    [returns] and [deprecation] are those of the first, or those of the
    second when the first has none. *)
Theorem X5_views_of_concatenation (d d1 d2 : Docstring) :
  meta d = meta d1 ++ meta d2 ->
  params d = params d1 ++ params d2
  /\ raises d = raises d1 ++ raises d2
  /\ many_returns d = many_returns d1 ++ many_returns d2
  /\ examples d = examples d1 ++ examples d2
  /\ notes d = notes d1 ++ notes d2
  /\ returns d
     = match returns d1 with Some r => Some r | None => returns d2 end
  /\ deprecation d
     = match deprecation d1 with
       | Some r => Some r
       | None => deprecation d2
       end.
Proof.
  intros E.
  unfold params, raises, many_returns, examples, notes, returns, deprecation.
  rewrite E, !instances_of_app, !first_instance_of_app.
  repeat split.
Qed.

(** A docstring with one Param, followed by one with a Returns and a
    Param. *)
Lemma X5_views_of_concatenation_witness :
  let p1 := DocstringParam ["param"; "a"] None "a" None None None in
  let r := DocstringReturns ["returns"] None (Some "int") false None in
  let p2 := DocstringParam ["param"; "b"] None "b" None None None in
  let d1 := set_meta [p1] (Docstring_init None) in
  let d2 := set_meta [r; p2] (Docstring_init None) in
  let d := set_meta [p1; r; p2] (Docstring_init None) in
  params d = params d1 ++ params d2
  /\ raises d = raises d1 ++ raises d2
  /\ many_returns d = many_returns d1 ++ many_returns d2
  /\ examples d = examples d1 ++ examples d2
  /\ notes d = notes d1 ++ notes d2
  /\ returns d
     = match returns d1 with Some r => Some r | None => returns d2 end
  /\ deprecation d
     = match deprecation d1 with
       | Some r => Some r
       | None => deprecation d2
       end.
Proof.
  intros p1 r p2 d1 d2 d.
  apply (X5_views_of_concatenation d d1 d2).
  reflexivity.
Defined.

(** ** The keyword tables as a classifier *)

(** X6: a word is in at most one of the seven tables, but for [note],
    which is in [PARAM_KEYWORDS] and [NOTES_KEYWORDS] and in no other;
    the tables hold 21 words between them. *)
Theorem X6_keyword_tables_overlap :
  Keywords.PARAM_KEYWORDS ∩ Keywords.NOTES_KEYWORDS = {[ "note" ]}
  /\ (forall i j s t,
        Keywords.tables !! i = Some s ->
        Keywords.tables !! j = Some t ->
        i <> j ->
        forall w, w ∈ s -> w ∈ t -> w = "note" /\ (i = 0 \/ i = 6)%nat)
  /\ size (⋃ Keywords.tables) = 21%nat.
Proof.
  split; [|split].
  - vm_compute. reflexivity.
  - intros i j s t Hi Hj Hne w Hs Ht. unfold Keywords.tables in Hi, Hj.
    destruct i as [|[|[|[|[|[|[|i]]]]]]]; simpl in Hi; try discriminate Hi;
      injection Hi as <-;
      destruct j as [|[|[|[|[|[|[|j]]]]]]]; simpl in Hj;
      try discriminate Hj; injection Hj as <-; try congruence;
      unfold Keywords.PARAM_KEYWORDS, Keywords.RAISES_KEYWORDS,
        Keywords.DEPRECATION_KEYWORDS, Keywords.RETURNS_KEYWORDS,
        Keywords.YIELDS_KEYWORDS, Keywords.EXAMPLES_KEYWORDS,
        Keywords.NOTES_KEYWORDS in Hs, Ht;
      repeat match type of Hs with
             | _ ∈ _ ∪ _ => apply elem_of_union in Hs as [Hs|Hs]
             end;
      apply elem_of_singleton in Hs; subst w;
      repeat match type of Ht with
             | _ ∈ _ ∪ _ => apply elem_of_union in Ht as [Ht|Ht]
             end;
      apply elem_of_singleton in Ht; try discriminate Ht; auto.
  - vm_compute. reflexivity.
Qed.

(** ** What the rewrap does to a short or long description *)

(** A property of [fill] on the stripped text holds of every description
    that is set and of the text a run with a positive width leaves in
    its place. *)
Lemma descriptions_after_run (P : string -> string -> Prop) d width :
  0 < width ->
  (forall text filled,
     textwrap.fill (PyStr.strip text) width = Ok filled -> P text filled) ->
  descriptions_satisfy P d (final_state (format_docstring_to_pep257 d width)).
Proof.
  intros Hw HP. unfold format_docstring_to_pep257.
  destruct (format_short_positive width d Hw) as (d1 & -> & Hl1 & _ & Hs1).
  destruct (format_long_positive width d1 Hw) as (d2 & E2 & Hs2 & _ & Hl2).
  cbn [and_then]. rewrite E2. cbn [and_then].
  destruct (format_all_meta_descriptions width d2) as [Es El].
  split.
  - intros text Ht. destruct (Hs1 text Ht) as (filled & Ef & Hf & _).
    exists filled. split; [congruence | auto].
  - intros text Ht. rewrite <- Hl1 in Ht.
    destruct (Hl2 text Ht) as (filled & Ef & Hf & _).
    exists filled. split; [congruence | auto].
Qed.

(** X8: with a positive width, a short or long description made of
    white space only becomes the empty string. *)
Theorem X8_blank_description_emptied (d : Docstring) (width : Z) :
  0 < width ->
  descriptions_satisfy
    (fun text filled => all_chars PyStr.isspace text = true -> filled = "")
    d (final_state (format_docstring_to_pep257 d width)).
Proof.
  intros Hw. apply descriptions_after_run; [exact Hw|].
  intros text filled Hfill Hblank.
  rewrite (blank_strip_empty text Hblank), fill_empty in Hfill by exact Hw.
  congruence.
Qed.

(** A short description of three spaces and a long one of a tab and a
    line feed, at width 72. *)
Lemma X8_blank_description_emptied_witness :
  short_description
    (final_state
       (format_docstring_to_pep257
          (set_long_description
             (Some (String "009" (String "010" EmptyString)))
             (docstring_with_short "   ")) 72))
  = Some ""
  /\ long_description
       (final_state
          (format_docstring_to_pep257
             (set_long_description
                (Some (String "009" (String "010" EmptyString)))
                (docstring_with_short "   ")) 72))
     = Some "".
Proof.
  destruct (X8_blank_description_emptied
              (set_long_description
                 (Some (String "009" (String "010" EmptyString)))
                 (docstring_with_short "   ")) 72 ltac:(lia)) as [Hs Hl].
  destruct (Hs "   " eq_refl) as (f1 & E1 & H1).
  destruct (Hl (String "009" (String "010" EmptyString)) eq_refl)
    as (f2 & E2 & H2).
  rewrite E1, E2, (H1 eq_refl), (H2 eq_refl). split; reflexivity.
Defined.

Section WhiteSpaceOfLines.

Import PyStr textwrap.

Lemma every_char_weaken (p q : ascii -> bool) s :
  (forall c, p c = true -> q c = true) -> every_char p s -> every_char q s.
Proof.
  intros Hpq. unfold every_char. induction s as [|c s IH]; [reflexivity|].
  simpl. intros [Hc Hs]%andb_true_iff. rewrite (Hpq c Hc), IH by exact Hs.
  reflexivity.
Qed.

Lemma every_char_join (q : ascii -> bool) sep lines :
  every_char q sep -> Forall (every_char q) lines ->
  every_char q (join sep lines).
Proof.
  intros Hsep H. unfold every_char, join in *.
  induction H as [|a l Ha Hl IH]; [reflexivity|].
  destruct l as [|b l]; [exact Ha|].
  change (String.concat sep (a :: b :: l))
    with (a +:+ (sep +:+ String.concat sep (b :: l))).
  rewrite !all_chars_app, Ha, Hsep, IH. reflexivity.
Qed.

Lemma munge_space_or_other text :
  every_char space_or_other (_munge_whitespace text).
Proof.
  unfold _munge_whitespace, every_char. generalize (expandtabs 8 text).
  intros s. induction s as [|c s IH]; [reflexivity|]. simpl.
  rewrite IH, andb_true_r. unfold unicode_whitespace_trans, space_or_other.
  destruct (is_whitespace c) eqn:E; [reflexivity|]. rewrite E. reflexivity.
Qed.

(** The text [fill] returns has, of the white space characters that
    [textwrap] knows, only spaces and line feeds. *)
Lemma fill_space_newline text width filled :
  fill text width = Ok filled -> every_char space_newline_or_other filled.
Proof.
  unfold fill, wrap, _wrap_chunks.
  destruct (width <=? 0); [discriminate|]. intros [= <-].
  apply every_char_join; [reflexivity|].
  eapply Forall_impl.
  - apply (wrap_loop_all space_or_other); [|constructor].
    apply split_from_all, munge_space_or_other.
  - intros line. apply every_char_weaken.
    intros c Hc. unfold space_newline_or_other. rewrite Hc. reflexivity.
Qed.

End WhiteSpaceOfLines.

(** X9: with a positive width, the rewrapped short or long description
    has no tab, vertical tab, form feed or carriage return: of these
    and the space and the line feed, only spaces and line feeds are
    left. *)
Theorem X9_only_spaces_and_newlines (d : Docstring) (width : Z) :
  0 < width ->
  descriptions_satisfy
    (fun _ filled => every_char space_newline_or_other filled)
    d (final_state (format_docstring_to_pep257 d width)).
Proof.
  intros Hw. apply descriptions_after_run; [exact Hw|].
  intros text filled Hfill. eapply fill_space_newline, Hfill.
Qed.

(** A short description with a tab and a carriage return, at width 72. *)
Lemma X9_only_spaces_and_newlines_witness :
  exists filled,
    short_description
      (final_state
         (format_docstring_to_pep257
            (docstring_with_short
               (String "a" (String "009" (String "b" (String "013" "c")))))
            72))
    = Some filled
    /\ every_char space_newline_or_other filled.
Proof.
  destruct (X9_only_spaces_and_newlines
              (docstring_with_short
                 (String "a" (String "009" (String "b" (String "013" "c")))))
              72 ltac:(lia)) as [Hs _].
  apply (Hs _ eq_refl).
Defined.

Section NoBlankLine.

Import PyStr textwrap.

Variable width : Z.
Hypothesis width_positive : 1 <= width.

Lemma len_positive s : s <> "" -> 0 < len s.
Proof. destruct s; [congruence|]. unfold len. simpl. lia. Qed.

Lemma len_zero_empty s : len s <= 0 -> s = "".
Proof. destruct s; [reflexivity|]. unfold len. simpl. lia. Qed.

Lemma take_fitting_nonblank chunks cur_line cur_len line n rest :
  Forall nonblank chunks -> Forall nonblank cur_line ->
  take_fitting width chunks cur_line cur_len = (line, n, rest) ->
  Forall nonblank line /\ Forall nonblank rest.
Proof.
  revert cur_line cur_len.
  induction chunks as [|chunk chunks IH]; intros cur_line cur_len Hc Hl;
    simpl.
  - intros [= <- <- <-]. auto.
  - inversion Hc; subst.
    destruct (cur_len + len chunk <=? width).
    + apply IH; [assumption|]. apply Forall_app. auto.
    + intros [= <- <- <-]. auto.
Qed.

(** What is left of a chunk longer than the width is not empty. *)
Lemma handle_long_word_nonblank chunk cur_line cur_len line top' :
  0 <= cur_len <= width ->
  width < len chunk ->
  _handle_long_word chunk cur_line cur_len width = (line, top') ->
  top' <> "" /\ exists piece, line = cur_line ++ [piece].
Proof.
  intros Hcur Hlong. unfold _handle_long_word.
  destruct (Z.ltb_spec width 1) as [|_]; [lia|].
  intros [= <- <-]. split; [|eauto].
  set (space_left := width - cur_len).
  assert (Hspace : 0 <= space_left <= width) by (unfold space_left; lia).
  match goal with |- slice_from chunk ?e <> _ =>
    assert (He : 0 <= e <= space_left)
  end.
  { destruct (len chunk >? space_left); [|lia].
    pose proof (rfind_le chunk "-" 0 space_left (proj1 Hspace)).
    destruct (Z.gtb_spec (rfind chunk "-" 0 space_left) 0); simpl; [|lia].
    destruct (any_other_than _ _); lia. }
  intros Hempty.
  assert (Hlen : String.length (slice_from chunk
                   (if len chunk >? space_left
                    then
                      if (rfind chunk "-" 0 space_left >? 0)
                         && any_other_than "-"
                              (slice_to chunk (rfind chunk "-" 0 space_left))
                      then rfind chunk "-" 0 space_left + 1
                      else space_left
                    else space_left)) = 0%nat)
    by (rewrite Hempty; reflexivity).
  unfold slice_from in Hlen. rewrite length_drop in Hlen.
  unfold slice_index in Hlen.
  match type of Hlen with context [?e <? 0] =>
    destruct (Z.ltb_spec e 0); [lia|]
  end.
  unfold len in *. lia.
Qed.

Lemma drop_last_blank_nonblank cur_line :
  Forall nonblank cur_line -> Forall nonblank (drop_last_blank cur_line).
Proof.
  intros H. unfold drop_last_blank. destruct (last cur_line); [|exact H].
  destruct (String.eqb _ _); [|exact H].
  induction H as [|a l Ha Hl IH]; [constructor|].
  destruct l; [constructor|]. simpl in *. constructor; auto.
Qed.

Lemma drop_last_blank_snoc cur_line piece :
  Forall nonblank cur_line ->
  Forall nonblank (drop_last_blank (cur_line ++ [piece])).
Proof.
  intros H. unfold drop_last_blank. rewrite last_snoc.
  destruct (String.eqb_spec (strip piece) "") as [|Hne].
  - rewrite removelast_last. exact H.
  - apply Forall_app. split; [exact H|]. constructor; [|constructor].
    intros ->. apply Hne. reflexivity.
Qed.

Lemma join_nonblank cur_line :
  nonempty cur_line = true -> Forall nonblank cur_line ->
  join "" cur_line <> "".
Proof.
  destruct cur_line as [|a l]; [discriminate|]. intros _ H.
  inversion H as [|? ? Ha _]; subst. rewrite join_empty_cons.
  destruct a; [congruence|]. rewrite app_cons. discriminate.
Qed.

Lemma wrap_step_nonblank chunk rest lines chunks' lines' :
  Forall nonblank (chunk :: rest) -> Forall nonblank lines ->
  wrap_step width chunk rest lines = (chunks', lines') ->
  Forall nonblank chunks' /\ Forall nonblank lines'.
Proof.
  intros Hc Hl. unfold wrap_step.
  set (chunks1 := if String.eqb (strip chunk) "" && nonempty lines
                  then rest else chunk :: rest).
  assert (H1 : Forall nonblank chunks1).
  { unfold chunks1. destruct (_ && _); [inversion Hc|]; assumption. }
  destruct (take_fitting width chunks1 [] 0)
    as [[cur_line cur_len] chunks2] eqn:Et.
  assert (H0 : 0 <= width) by lia.
  pose proof (take_fitting_len width chunks1 [] 0 _ _ _ eq_refl H0 Et)
    as [Hsum Hcur].
  apply take_fitting_nonblank in Et as [Hline H2]; [|assumption|constructor].
  assert (H3 : forall cur_line2 chunks3,
    match chunks2 with
    | top :: below =>
        if len top >? width then
          let '(line, top') := _handle_long_word top cur_line cur_len width in
          (line, top' :: below)
        else (cur_line, chunks2)
    | [] => (cur_line, chunks2)
    end = (cur_line2, chunks3) ->
    Forall nonblank (drop_last_blank cur_line2) /\ Forall nonblank chunks3).
  { intros cur_line2 chunks3.
    destruct chunks2 as [|top below].
    - intros [= <- <-]. split; [apply drop_last_blank_nonblank|]; assumption.
    - destruct (Z.gtb_spec (len top) width) as [Hlong|].
      + destruct (_handle_long_word top cur_line cur_len width)
          as [line top'] eqn:Eh.
        apply handle_long_word_nonblank in Eh as [Htop [piece ->]];
          [| pose proof (total_len_nonneg cur_line); lia | lia].
        intros [= <- <-]. inversion H2; subst. split.
        * apply drop_last_blank_snoc, Hline.
        * constructor; assumption.
      + intros [= <- <-].
        split; [apply drop_last_blank_nonblank|]; assumption. }
  destruct (match chunks2 with [] => _ | _ => _ end) as [cur_line2 chunks3].
  destruct (H3 _ _ eq_refl) as [Hline3 Hchunks3].
  intros [= <- <-]. split; [assumption|].
  destruct (nonempty (drop_last_blank cur_line2)) eqn:En; [|assumption].
  apply Forall_app. split; [assumption|].
  constructor; [|constructor]. apply join_nonblank; assumption.
Qed.

Lemma wrap_loop_nonblank fuel chunks lines :
  Forall nonblank chunks -> Forall nonblank lines ->
  Forall nonblank (wrap_loop fuel width chunks lines).
Proof.
  revert chunks lines.
  induction fuel as [|fuel IH]; intros chunks lines Hc Hl.
  - destruct chunks; exact Hl.
  - destruct chunks as [|chunk rest]; [exact Hl|]. simpl.
    destruct (wrap_step width chunk rest lines) as [chunks' lines'] eqn:E.
    apply wrap_step_nonblank in E as [? ?]; auto.
Qed.

End NoBlankLine.

(** The text [fill] returns has no empty line: what was several
    paragraphs is one. *)
Lemma fill_no_blank_line text width filled :
  textwrap.fill text width = Ok filled -> no_blank_line filled.
Proof.
  unfold textwrap.fill, textwrap.wrap, textwrap._wrap_chunks.
  destruct (Z.leb_spec width 0) as [|Hw]; [discriminate|]. intros [= <-].
  set (chunks := textwrap._split_chunks text).
  set (lines := textwrap.wrap_loop (textwrap.weight chunks) width chunks []).
  assert (Hne : Forall (fun s : string => s <> "") lines).
  { apply wrap_loop_nonblank; [lia| |constructor].
    apply split_from_chunks_nonempty. }
  assert (Hnl : Forall (fun line => all_chars not_newline line = true) lines).
  { apply wrap_loop_all; [|constructor].
    apply split_from_all, munge_no_newline. }
  destruct lines as [|line lines'] eqn:E; [left; reflexivity|].
  right. fold newline.
  rewrite split_join_lines; [exact Hne | discriminate | exact Hnl].
Qed.

(** X10: with a positive width, the rewrapped short or long description
    is empty or has no empty line: the paragraphs of a long description
    are run together. *)
Theorem X10_no_blank_line_left (d : Docstring) (width : Z) :
  0 < width ->
  descriptions_satisfy (fun _ filled => no_blank_line filled)
    d (final_state (format_docstring_to_pep257 d width)).
Proof.
  intros Hw. apply descriptions_after_run; [exact Hw|].
  intros text filled Hfill. eapply fill_no_blank_line, Hfill.
Qed.

(** A long description of two paragraphs, at width 72. *)
Lemma X10_no_blank_line_left_witness :
  exists filled,
    long_description
      (final_state
         (format_docstring_to_pep257
            (set_long_description
               (Some ("First paragraph." +:+ newline +:+ newline
                      +:+ "Second paragraph."))
               (Docstring_init None))
            72))
    = Some filled
    /\ no_blank_line filled.
Proof.
  destruct (X10_no_blank_line_left
              (set_long_description
                 (Some ("First paragraph." +:+ newline +:+ newline
                        +:+ "Second paragraph."))
                 (Docstring_init None))
              72 ltac:(lia)) as [_ Hl].
  apply (Hl _ eq_refl).
Defined.

(** ** The [args] a returning run leaves *)

Lemma clean_args_tokens args : Forall clean_token (clean_args args).
Proof.
  induction args as [|arg rest IH]; simpl; [constructor|].
  destruct (PyStr.strip arg) as [|c s] eqn:E; simpl; [exact IH|].
  constructor; [|exact IH]. split; [discriminate|].
  rewrite <- E. apply strip_idem.
Qed.

Lemma clean_args_length args :
  (length (clean_args args) <= length args)%nat.
Proof.
  induction args as [|arg rest IH]; simpl; [lia|].
  destruct (PyStr.strip arg); simpl; lia.
Qed.

(** X11: when the run returns (the width is positive or there is no
    short or long description to wrap, and no fragment has a non-empty
    description), every token of every [args] is non-empty and has no
    white space at either end, no [args] is longer than it was, and a
    second cleaning would change none. *)
Theorem X11_args_left_clean (d : Docstring) (width : Z) :
  0 < width
  \/ (no_text (short_description d) /\ no_text (long_description d)) ->
  Forall (fun m => no_text (Meta.description m)) (meta d) ->
  exists d',
    format_docstring_to_pep257 d width = Normal d'
    /\ Forall (fun m => Forall clean_token (Meta.args m)) (meta d')
    /\ Forall2
         (fun m m' => (length (Meta.args m') <= length (Meta.args m))%nat)
         (meta d) (meta d')
    /\ map with_clean_args (meta d') = meta d'.
Proof.
  intros Hw Hm.
  destruct (format_returns d width Hw Hm) as (d' & Hrun & Hmeta).
  exists d'. split; [exact Hrun|]. rewrite Hmeta. clear.
  induction (meta d) as [|m rest (IH1 & IH2 & IH3)]; simpl.
  - repeat constructor.
  - split; [|split].
    + constructor; [|exact IH1].
      rewrite args_with_clean_args. apply clean_args_tokens.
    + constructor; [|exact IH2].
      rewrite args_with_clean_args. apply clean_args_length.
    + rewrite with_clean_args_idem, IH3. reflexivity.
Qed.

(** A run at width 72 on the fragment with the [args] of the scenario. *)
Lemma X11_args_left_clean_witness :
  exists d',
    format_docstring_to_pep257 (docstring_with_untidy_args (Some " x ")) 72
    = Normal d'
    /\ Forall (fun m => Forall clean_token (Meta.args m)) (meta d')
    /\ Forall2
         (fun m m' => (length (Meta.args m') <= length (Meta.args m))%nat)
         (meta (docstring_with_untidy_args (Some " x "))) (meta d')
    /\ map with_clean_args (meta d') = meta d'.
Proof.
  apply (X11_args_left_clean (docstring_with_untidy_args (Some " x ")) 72).
  - left. lia.
  - repeat constructor.
Defined.

(** ** Descriptions that are wrapped already *)

Lemma format_long_keeps_short width d :
  short_description (final_state (format_long_description width d))
  = short_description d.
Proof.
  unfold format_long_description.
  destruct (long_description d) as [[|c s]|]; try reflexivity.
  cbn [PyStr.truthy].
  destruct (textwrap.fill (PyStr.strip (String c s)) width); reflexivity.
Qed.

Lemma format_short_keeps_long width d :
  long_description (final_state (format_short_description width d))
  = long_description d.
Proof.
  unfold format_short_description.
  destruct (short_description d) as [[|c s]|]; try reflexivity.
  cbn [PyStr.truthy].
  destruct (textwrap.fill (PyStr.strip (String c s)) width); reflexivity.
Qed.

(** The state at the end of a run, from the states at the end of its
    three steps. *)
Lemma final_state_and_then {S} (o : outcome S) (k : S -> outcome S) :
  final_state (and_then o k)
  = match o with
    | Normal s => final_state (k s)
    | Raised _ s => s
    end.
Proof. destruct o; reflexivity. Qed.

(** X12: a short description that is tidy (no white space at its ends,
    single spaces inside) and no longer than the width is left exactly
    as it is, and so is such a long description, whatever the rest of
    the docstring is and however the run ends. *)
Theorem X12_tidy_description_kept (d : Docstring) (width : Z) :
  let d' := final_state (format_docstring_to_pep257 d width) in
  (tidy_within width (short_description d) ->
   short_description d' = short_description d)
  /\ (tidy_within width (long_description d) ->
      long_description d' = long_description d).
Proof.
  intros d'. subst d'. unfold format_docstring_to_pep257.
  rewrite final_state_and_then. split.
  - intros Ht. rewrite (format_short_tidy width d Ht). cbn [and_then].
    pose proof (format_long_keeps_short width d) as Hl.
    destruct (format_long_description width d) as [d2|e d2];
      cbn [final_state] in Hl; [|exact Hl].
    destruct (format_all_meta_descriptions width d2) as [E _].
    rewrite E. exact Hl.
  - intros Ht.
    pose proof (format_short_keeps_long width d) as Hs.
    destruct (format_short_description width d) as [d1|e d1];
      cbn [and_then final_state] in *; [|exact Hs].
    rewrite <- Hs in Ht. rewrite (format_long_tidy width d1 Ht).
    destruct (format_all_meta_descriptions width d1) as [_ E].
    rewrite E. exact Hs.
Qed.

(** A tidy summary of 13 characters at width 13, with a long description
    that is rewrapped. *)
Lemma X12_tidy_description_kept_witness :
  short_description
    (final_state
       (format_docstring_to_pep257
          (set_long_description (Some "  more   text  ")
             (docstring_with_short "Summary line."))
          13))
  = Some "Summary line.".
Proof.
  apply (X12_tidy_description_kept
           (set_long_description (Some "  more   text  ")
              (docstring_with_short "Summary line."))
           13).
  split; [vm_compute; congruence | reflexivity].
Defined.
